(** * OpenHamClock development server: a shallow embedding of [server.py]

    The server is one Python module: two module globals ([PORT],
    [API_ENDPOINTS]), a request handler class [OpenHamClockHandler] deriving
    from [http.server.SimpleHTTPRequestHandler], and [main].  Python code is
    embedded as functions in a monad of state, exceptions and output: the
    state is a [World] holding the module globals, the working directory and
    a clock; the output is the ordered list of everything the process does
    that can be observed from outside (lines printed, outbound fetches,
    response calls, file lookups).

    The methods that [server.py] inherits and that call back into its
    overridden [log_message] ([send_response], [send_error], [log_request],
    [log_error]) are embedded from CPython's [Lib/http/server.py], call for
    call.  What the network, the file system and the clock answer is read
    from an [Env] of oracles. *)

From Stdlib Require Import ZArith String Ascii List Bool Lia DecimalString.
From Stdlib Require Import Strings.Byte.
Import ListNotations.
Open Scope string_scope.
Open Scope list_scope.
Open Scope Z_scope.

(** ** Python strings

    [self.path] and [self.requestline] are decoded from the wire as
    ISO-8859-1, one character per byte, which is exactly Rocq's [string]. *)
Module PyStr.

(** [s.startswith(pre)] *)
Definition startswith (s pre : string) : bool := String.prefix pre s.

(** Worker of [replace]: scans [s] left to right; [skip] counts the
    characters of a match that are still to be dropped, so matches never
    overlap. *)
Fixpoint replace_from (old new : string) (skip : nat) (s : string) : string :=
  match s with
  | EmptyString => EmptyString
  | String c s' =>
      match skip with
      | S k => replace_from old new k s'
      | O =>
          if String.prefix old s
          then new ++ replace_from old new (Nat.pred (String.length old)) s'
          else String c (replace_from old new O s')
      end
  end.

(** [s.replace(old, new)] for a non-empty [old]: every non-overlapping
    occurrence of [old], found left to right, is replaced by [new]. *)
Definition replace (s old new : string) : string := replace_from old new O s.

(** [s.split(sep)[0]] for a non-empty [sep]: the part of [s] before the
    first occurrence of [sep], or all of [s] when there is none. *)
Fixpoint split_head (s sep : string) : string :=
  match s with
  | EmptyString => EmptyString
  | String c s' =>
      if String.prefix sep s then EmptyString else String c (split_head s' sep)
  end.

Definition lower_ascii (c : ascii) : ascii :=
  let n := nat_of_ascii c in
  if ((65 <=? n) && (n <=? 90))%nat then ascii_of_nat (n + 32) else c.

(** [s.lower()] on the ASCII letters; enough to decide equality with an
    all-ASCII lower-case literal, which is its only use here. *)
Fixpoint lower (s : string) : string :=
  match s with
  | EmptyString => EmptyString
  | String c s' => String (lower_ascii c) (lower s')
  end.

(** The one-character string holding a double quote. *)
Definition dquote : string := String (ascii_of_nat 34) EmptyString.

(** [str(n)] for an integer. *)
Definition of_Z (n : Z) : string := NilEmpty.string_of_int (Z.to_int n).

End PyStr.

(** ** Python values, exceptions, dictionaries *)

(** The values that reach [log_message]'s [*args]. *)
Inductive PyVal :=
| PyStr_ (s : string)
| PyInt_ (n : Z)
| PyHTTPStatus_ (n : Z)   (* a member of the enum http.HTTPStatus *).

Inductive ExnClass :=
| URLError          (* urllib.error.URLError *)
| HTTPError         (* urllib.error.HTTPError, a subclass of URLError *)
| AttributeError
| IndexError
| ValueError
| OSError
| TimeoutError
| KeyboardInterrupt (* a BaseException that is not an Exception *).

Record Exn := mkExn { exn_class : ExnClass; exn_str : string }.

(** [isinstance(e, urllib.error.URLError)] *)
Definition is_URLError (e : Exn) : bool :=
  match exn_class e with URLError | HTTPError => true | _ => false end.

(** [isinstance(e, Exception)] *)
Definition is_Exception (e : Exn) : bool :=
  match exn_class e with KeyboardInterrupt => false | _ => true end.

Inductive Outcome (A : Type) :=
| Return (a : A)
| Raise (e : Exn).
Arguments Return {A} a.
Arguments Raise {A} e.

(** A Python [dict] of strings: insertion-ordered, keys unique. *)
Definition PyDict := list (string * string).

Fixpoint dict_get (d : PyDict) (k : string) : option string :=
  match d with
  | [] => None
  | (k', v) :: d' => if String.eqb k k' then Some v else dict_get d' k
  end.

Definition dict_keys (d : PyDict) : list string := map fst d.

(** ** urllib *)

(** [urllib.request.Request(url, headers=...)]; with no [data] its method
    is GET. *)
Record Request := mkRequest {
  full_url : string;
  req_headers : list (string * string);
  req_data : option (list byte)
}.

Definition get_method (r : Request) : string :=
  match req_data r with None => "GET" | Some _ => "POST" end.

(** The object [urlopen] returns: its status, its headers and what
    [response.read()] gives. *)
Record Response := mkResponse {
  status : Z;
  headers : list (string * string);
  read : Outcome (list byte)
}.

(** [headers.get(name, default)]: first header whose name matches
    case-insensitively. *)
Fixpoint headers_get (hs : list (string * string)) (name default : string) : string :=
  match hs with
  | [] => default
  | (k, v) :: hs' =>
      if String.eqb (PyStr.lower k) (PyStr.lower name) then v
      else headers_get hs' name default
  end.

(** What [urlopen] makes of the final answer of the upstream (urllib's
    [HTTPErrorProcessor] and [HTTPDefaultErrorHandler]): an answer whose
    status is outside 200..299 is not returned; HTTPError is raised, with
    the status and the reason phrase [msg] as its text, and the body is left
    unread. *)
Definition http_error_processor (msg : string) (answer : Response) : Outcome Response :=
  if (200 <=? status answer) && (status answer <? 300) then Return answer
  else Raise (mkExn HTTPError
                ("HTTP Error " ++ PyStr.of_Z (status answer) ++ ": " ++ msg)).

(** ** The world *)

Inductive Event :=
| Enter (method : string)                 (* a method of the handler is entered *)
| Print (line : string)                   (* print(line) *)
| Urlopen (req : Request) (timeout : Z)   (* urllib.request.urlopen(req, timeout=...) *)
| SendResponseOnly (code : Z)             (* status line put in the headers buffer *)
| SendHeader (keyword value : string)     (* self.send_header *)
| EndHeaders                              (* self.end_headers: buffer flushed to wfile *)
| WfileWrite (data : list byte)           (* self.wfile.write *)
| FsLookup (directory path : string)      (* the static server resolves and opens a path *)
| Chdir (dir : string)                    (* os.chdir *)
| Bind (host : string) (port : Z)         (* socketserver.TCPServer((host, port), ...) *)
| HandleError (e : Exn)                   (* socketserver's handle_error: traceback, connection dropped *).

Record World := mkWorld {
  mod_API_ENDPOINTS : PyDict;   (* the module global API_ENDPOINTS *)
  mod_PORT : Z;                 (* the module global PORT *)
  cwd : string;                 (* os.getcwd() *)
  ticks : nat                   (* how often the environment was consulted *)
}.

(** What the static file server finds for a path (CPython's
    [SimpleHTTPRequestHandler.send_head] and [list_directory]). *)
Inductive StaticOutcome :=
| StaticFile (hdrs : list (string * string)) (reads : list (list byte))
    (* the headers of the answer, and what the successive reads of the file
       return while it is copied to the client *)
| StaticRedirect (location : string)
| StaticNotModified
| StaticError (code : Z) (message : string).

(** Everything outside the process. Each oracle is indexed by [ticks], so
    that two consultations may differ. *)
Record Env := mkEnv {
  strftime_HMS : nat -> string;       (* datetime.now().strftime('%H:%M:%S') *)
  date_time_string : nat -> string;   (* self.date_time_string() *)
  version_string : string;            (* self.version_string() *)
  urlopen_result : nat -> Request -> Z -> Outcome Response;
  send_head_result : nat -> string -> string -> StaticOutcome;
  error_body : Z -> string -> list byte;  (* the rendered HTML error page *)
  py_int : string -> Outcome Z;       (* the builtin int() on a str *)
  script_dir : string                 (* os.path.dirname(os.path.abspath(__file__)) *)
}.

(** ** The monad *)

(** Running a piece of code from a world gives how it ended, the world it
    left and the events it produced, oldest first. *)
Record Run (A : Type) := mkRun {
  outcome : Outcome A;
  world : World;
  events : list Event
}.
Arguments mkRun {A} outcome world events.
Arguments outcome {A} r.
Arguments world {A} r.
Arguments events {A} r.

Definition M (A : Type) : Type := World -> Run A.

Definition ret {A} (a : A) : M A := fun w => mkRun (Return a) w [].

Definition raise {A} (e : Exn) : M A := fun w => mkRun (Raise e) w [].

Definition bind {A B} (m : M A) (k : A -> M B) : M B :=
  fun w =>
    let r := m w in
    match outcome r with
    | Return a =>
        let r' := k a (world r) in
        mkRun (outcome r') (world r') (events r ++ events r')
    | Raise e => mkRun (Raise e) (world r) (events r)
    end.

Declare Scope py_scope.
Delimit Scope py_scope with py.
Notation "x <- c1 ;; c2" := (bind c1 (fun x => c2))
  (at level 100, c1 at next level, right associativity) : py_scope.
Notation "c1 ;;; c2" := (bind c1 (fun _ => c2))
  (at level 100, right associativity) : py_scope.
Open Scope py_scope.

(** [try: body except ...: handler]; [handler e = None] when no clause
    matches [e], which then propagates. An exception raised by the handler
    itself is not caught by the sibling clauses. *)
Definition try_except {A} (body : M A) (handler : Exn -> option (M A)) : M A :=
  fun w =>
    let r := body w in
    match outcome r with
    | Return a => r
    | Raise e =>
        match handler e with
        | Some h =>
            let r' := h (world r) in
            mkRun (outcome r') (world r') (events r ++ events r')
        | None => r
        end
    end.

Definition lift {A} (o : Outcome A) : M A := fun w => mkRun o w [].

Definition emit (e : Event) : M unit := fun w => mkRun (Return tt) w [e].

(** The world one consultation of the environment later. *)
Definition tick_world (w : World) : World :=
  mkWorld (mod_API_ENDPOINTS w) (mod_PORT w) (cwd w) (S (ticks w)).

(** Consult the environment: hands out the current tick and advances it. *)
Definition tick : M nat := fun w => mkRun (Return (ticks w)) (tick_world w) [].

Definition read_API_ENDPOINTS : M PyDict := fun w => mkRun (Return (mod_API_ENDPOINTS w)) w [].
Definition read_PORT : M Z := fun w => mkRun (Return (mod_PORT w)) w [].
Definition getcwd : M string := fun w => mkRun (Return (cwd w)) w [].

Definition chdir (d : string) : M unit :=
  fun w => mkRun (Return tt)
                 (mkWorld (mod_API_ENDPOINTS w) (mod_PORT w) d (ticks w)) [Chdir d].

Definition print (line : string) : M unit := emit (Print line).

Fixpoint for_each {A} (l : list A) (body : A -> M unit) : M unit :=
  match l with
  | [] => ret tt
  | x :: l' => body x ;;; for_each l' body
  end.

(** ** The request handler object

    Of [self], the code reads [self.path] and, through the inherited
    methods, [self.requestline] and [self.request_version];
    [parse_request] has set them before [do_GET] runs. The version is
    ['HTTP/0.9'] for a request line of two words, without a version. *)
Record Handler := mkHandler {
  path : string;
  requestline : string;
  request_version : string
}.

(** [self.request_version != 'HTTP/0.9'] is what the inherited methods test
    before they put anything in the headers buffer. *)
Definition is_http_0_9 (self : Handler) : bool :=
  String.eqb (request_version self) "HTTP/0.9".

(** ** Inherited methods, from CPython's [Lib/http/server.py]

    [log_message] is looked up on [self], so the methods take the override
    as a parameter. *)
Module BaseHTTPRequestHandler.
Section Methods.

Variable env : Env.
Variable log_message : Handler -> string -> list PyVal -> M unit.

(** No status line for an HTTP/0.9 request. *)
Definition send_response_only (self : Handler) (code : Z) : M unit :=
  if is_http_0_9 self then ret tt else emit (SendResponseOnly code).

(** No header for an HTTP/0.9 request. *)
Definition send_header (self : Handler) (keyword value : string) : M unit :=
  if is_http_0_9 self then ret tt else emit (SendHeader keyword value).

(** Nothing to end and nothing to flush for an HTTP/0.9 request. *)
Definition end_headers (self : Handler) : M unit :=
  if is_http_0_9 self then ret tt else emit EndHeaders.

(** [self.wfile.write(data)]. The events are the calls; the client is taken
    to stay connected, so that the call returns. A write that raises because
    the client has gone is not part of this development. *)
Definition wfile_write (data : list byte) : M unit := emit (WfileWrite data).

(** [self.log_message('"%s" %s %s', self.requestline, str(code), str(size))] *)
Definition log_request (self : Handler) (code : Z) : M unit :=
  log_message self (PyStr.dquote ++ "%s" ++ PyStr.dquote ++ " %s %s")
    [PyStr_ (requestline self); PyStr_ (PyStr.of_Z code); PyStr_ "-"].

(** [self.log_message(format, *args)] *)
Definition log_error (self : Handler) (format : string) (args : list PyVal) : M unit :=
  log_message self format args.

Definition send_response (self : Handler) (code : Z) : M unit :=
  log_request self code ;;;
  send_response_only self code ;;;
  send_header self "Server" (version_string env) ;;;
  (t <- tick ;;
   send_header self "Date" (date_time_string env t)).

(** [send_error(code, message)], where the caller's [code] is the Python
    object [code_object], whose number is [code]: the object is what
    [log_error] is given. [do_GET] only runs for the GET command, so the
    body, when there is one, is always written. *)
Definition send_error_object (code_object : PyVal) (self : Handler) (code : Z)
    (message : string) : M unit :=
  log_error self "code %d, message %s" [code_object; PyStr_ message] ;;;
  send_response self code ;;;
  send_header self "Connection" "close" ;;;
  if (200 <=? code) && negb ((code =? 204) || (code =? 205) || (code =? 304))
  then
    let body := error_body env code message in
    send_header self "Content-Type" "text/html;charset=utf-8" ;;;
    send_header self "Content-Length" (PyStr.of_Z (Z.of_nat (List.length body))) ;;;
    end_headers self ;;;
    match body with
    | [] => ret tt
    | _ => wfile_write body
    end
  else end_headers self.

(** [send_error] called with a plain [int], as [server.py] does. *)
Definition send_error (self : Handler) (code : Z) (message : string) : M unit :=
  send_error_object (PyInt_ code) self code message.

(** [send_error] called with a member of [HTTPStatus], as the inherited
    static handler does. *)
Definition send_error_status (self : Handler) (code : Z) (message : string) : M unit :=
  send_error_object (PyHTTPStatus_ code) self code message.

(** [shutil.copyfileobj(source, self.wfile)]: block after block is read and
    written until a read returns nothing. *)
Fixpoint copyfileobj (reads : list (list byte)) : M unit :=
  match reads with
  | [] => ret tt
  | [] :: _ => ret tt
  | buf :: rest => wfile_write buf ;;; copyfileobj rest
  end.

End Methods.
End BaseHTTPRequestHandler.

(** [SimpleHTTPRequestHandler.do_GET]: [send_head] resolves [self.path]
    below the directory the handler was created in (the process's working
    directory) and either answers itself or hands back a file to copy. *)
Module SimpleHTTPRequestHandler.
Section Methods.

Variable env : Env.
Variable log_message : Handler -> string -> list PyVal -> M unit.

Let send_response := BaseHTTPRequestHandler.send_response env log_message.
Let send_error_status := BaseHTTPRequestHandler.send_error_status env log_message.

Definition do_GET (self : Handler) : M unit :=
  emit (Enter "SimpleHTTPRequestHandler.do_GET") ;;;
  (directory <- getcwd ;;
   t <- tick ;;
   emit (FsLookup directory (path self)) ;;;
   match send_head_result env t directory (path self) with
   | StaticFile hdrs reads =>
       send_response self 200 ;;;
       for_each hdrs (fun kv => BaseHTTPRequestHandler.send_header self (fst kv) (snd kv)) ;;;
       BaseHTTPRequestHandler.end_headers self ;;;
       BaseHTTPRequestHandler.copyfileobj reads
   | StaticRedirect location =>
       send_response self 301 ;;;
       BaseHTTPRequestHandler.send_header self "Location" location ;;;
       BaseHTTPRequestHandler.send_header self "Content-Length" "0" ;;;
       BaseHTTPRequestHandler.end_headers self
   | StaticNotModified =>
       send_response self 304 ;;;
       BaseHTTPRequestHandler.end_headers self
   | StaticError code message =>
       send_error_status self code message
   end).

End Methods.
End SimpleHTTPRequestHandler.

(** ** [server.py] *)

(** [PORT = int(sys.argv[1]) if len(sys.argv) > 1 else 8080] *)
Definition PORT (env : Env) (argv : list string) : Outcome Z :=
  if (1 <? List.length argv)%nat
  then py_int env (nth 1 argv EmptyString)
  else Return 8080.

Definition API_ENDPOINTS : PyDict :=
  [ ("solarflux", "https://services.swpc.noaa.gov/json/solar-cycle/observed-solar-flux.json");
    ("kindex", "https://services.swpc.noaa.gov/json/planetary_k_index_1m.json");
    ("xray", "https://services.swpc.noaa.gov/json/goes/primary/xrays-7-day.json");
    ("sunspots", "https://services.swpc.noaa.gov/json/solar-cycle/sunspots.json");
    ("pota", "https://api.pota.app/spot/activator");
    ("bands", "https://www.hamqsl.com/solarxml.php") ].

Module OpenHamClockHandler.
Section Methods.

Variable env : Env.

(** [datetime.now().strftime('%H:%M:%S')] *)
Definition now_HMS : M string := t <- tick ;; ret (strftime_HMS env t).

(** [args[0].startswith('GET /api/')] is an attribute lookup on whatever
    the caller passed first: a [str] has the method, an [int] has not, nor
    has a member of [HTTPStatus]. *)
Definition log_message (self : Handler) (format : string) (args : list PyVal) : M unit :=
  match args with
  | [] => raise (mkExn IndexError "tuple index out of range")
  | PyInt_ _ :: _ =>
      raise (mkExn AttributeError "'int' object has no attribute 'startswith'")
  | PyHTTPStatus_ _ :: _ =>
      raise (mkExn AttributeError "'HTTPStatus' object has no attribute 'startswith'")
  | PyStr_ a0 :: _ =>
      if PyStr.startswith a0 "GET /api/" then ret tt
      else ts <- now_HMS ;; print ("[" ++ ts ++ "] " ++ a0)
  end.

Definition send_response := BaseHTTPRequestHandler.send_response env log_message.
Definition send_error := BaseHTTPRequestHandler.send_error env log_message.
Definition send_header := BaseHTTPRequestHandler.send_header.
Definition end_headers := BaseHTTPRequestHandler.end_headers.
Definition wfile_write := BaseHTTPRequestHandler.wfile_write.

(** [urllib.request.urlopen(req, timeout=...)] *)
Definition urlopen (req : Request) (timeout : Z) : M Response :=
  emit (Urlopen req timeout) ;;;
  (t <- tick ;; lift (urlopen_result env t req timeout)).

(** [self.path.replace('/api/', '').split('?')[0]] *)
Definition endpoint_of (p : string) : string :=
  PyStr.split_head (PyStr.replace p "/api/" EmptyString) "?".

Definition handle_api (self : Handler) : M unit :=
  emit (Enter "handle_api") ;;;
  let endpoint := endpoint_of (path self) in
  (table <- read_API_ENDPOINTS ;;
   match dict_get table endpoint with
   | None => send_error self 404 ("Unknown API endpoint: " ++ endpoint)
   | Some url =>
       try_except
         (ts <- now_HMS ;;
          print ("[" ++ ts ++ "] Fetching: " ++ url) ;;;
          let req := mkRequest url [("User-Agent", "OpenHamClock/1.0")] None in
          (response <- urlopen req 10 ;;
           data <- lift (read response) ;;
           let content_type :=
             headers_get (headers response) "Content-Type" "application/json" in
           send_response self 200 ;;;
           send_header self "Content-Type" content_type ;;;
           send_header self "Access-Control-Allow-Origin" "*" ;;;
           send_header self "Cache-Control" "max-age=60" ;;;
           end_headers self ;;;
           wfile_write data))
         (fun e =>
            if is_URLError e then
              Some (print ("[ERROR] Failed to fetch " ++ endpoint ++ ": " ++ exn_str e) ;;;
                    send_error self 502 ("Failed to fetch data: " ++ exn_str e))
            else if is_Exception e then
              Some (print ("[ERROR] " ++ exn_str e) ;;;
                    send_error self 500 (exn_str e))
            else None)
   end).

Definition do_GET (self : Handler) : M unit :=
  if PyStr.startswith (path self) "/api/"
  then handle_api self
  else SimpleHTTPRequestHandler.do_GET env log_message self.

End Methods.
End OpenHamClockHandler.

(** [str * n] *)
Fixpoint str_repeat (s : string) (n : nat) : string :=
  match n with
  | O => EmptyString
  | S k => s ++ str_repeat s k
  end.

Section Program.

Variable env : Env.

(** Module initialisation: the two globals are bound, [PORT] from the
    command line. *)
Definition module_init (argv : list string) (dir : string) : Outcome World :=
  match PORT env argv with
  | Return p => Return (mkWorld API_ENDPOINTS p dir O)
  | Raise e => Raise e
  end.

(** [main] up to and including the call that creates the listening
    socket. [os.chdir] to the directory the script was loaded from and the
    constructor of [TCPServer] are taken to return: a start-up that ends in
    their exception (the port in use, the port out of range) is not part of
    this development, which is about the server once it listens. *)
Definition main_startup : M unit :=
  chdir (script_dir env) ;;;
  print (str_repeat "=" 50) ;;;
  print "  OpenHamClock Development Server" ;;;
  print (str_repeat "=" 50) ;;;
  print EmptyString ;;;
  print ("  Serving from: " ++ script_dir env) ;;;
  (port <- read_PORT ;;
   print ("  URL: http://localhost:" ++ PyStr.of_Z port) ;;;
   print "  Press Ctrl+C to stop" ;;;
   print EmptyString ;;;
   print "  Available API endpoints:" ;;;
   (table <- read_API_ENDPOINTS ;;
    for_each table (fun kv => print ("    /api/" ++ fst kv)) ;;;
    print EmptyString ;;;
    print (str_repeat "=" 50) ;;;
    print EmptyString ;;;
    emit (Bind EmptyString port))).

(** [httpd.serve_forever()] over the GET requests that arrive: each one
    gets a fresh handler whose [do_GET] runs; an [Exception] escaping it
    is reported by socketserver's [handle_error] and the connection is
    dropped. *)
Fixpoint serve_forever (requests : list Handler) : M unit :=
  match requests with
  | [] => ret tt
  | self :: rest =>
      try_except (OpenHamClockHandler.do_GET env self)
                 (fun e => if is_Exception e then Some (emit (HandleError e)) else None) ;;;
      serve_forever rest
  end.

Definition main (requests : list Handler) : M unit :=
  main_startup ;;;
  try_except (serve_forever requests)
             (fun e => match exn_class e with
                       | KeyboardInterrupt => Some (print (String "010"%char "Server stopped."))
                       | _ => None
                       end).

End Program.

(** ** Reading the event list *)

(** The calls that build the HTTP response on the client connection. *)
Definition is_response_event (e : Event) : bool :=
  match e with
  | SendResponseOnly _ | SendHeader _ _ | EndHeaders | WfileWrite _ => true
  | _ => false
  end.

Definition is_Urlopen (e : Event) : bool :=
  match e with Urlopen _ _ => true | _ => false end.

(** The names of the headers sent, in order. *)
Fixpoint header_names (evs : list Event) : list string :=
  match evs with
  | [] => []
  | SendHeader keyword _ :: evs' => keyword :: header_names evs'
  | _ :: evs' => header_names evs'
  end.

Definition is_Enter_handle_api (e : Event) : bool :=
  match e with Enter m => String.eqb m "handle_api" | _ => false end.

(** Events that are not the entry of the proxy handler. *)
Definition not_handle_api (e : Event) : Prop := is_Enter_handle_api e = false.

(** The failure [log_message] ends in whenever its first positional
    argument is an [int]. *)
Definition no_startswith : Exn :=
  mkExn AttributeError "'int' object has no attribute 'startswith'".

(** The same failure when the first argument is a member of
    [HTTPStatus]. *)
Definition no_startswith_HTTPStatus : Exn :=
  mkExn AttributeError "'HTTPStatus' object has no attribute 'startswith'".

(** The status line and header calls [evs], as far as they reach the
    headers buffer for this request: all of them, or none for HTTP/0.9. *)
Definition head_calls (self : Handler) (evs : list Event) : list Event :=
  if is_http_0_9 self then [] else evs.

(** The blocks [copyfileobj] writes for a sequence of reads: those before
    the first empty one. *)
Fixpoint blocks_written (reads : list (list byte)) : list (list byte) :=
  match reads with
  | [] => []
  | [] :: _ => []
  | buf :: rest => buf :: blocks_written rest
  end.

(** A run with [evs] put in front of its events. *)
Definition prepend {A} (evs : list Event) (r : Run A) : Run A :=
  mkRun (outcome r) (world r) (evs ++ events r).

(** What the [except] clauses of [handle_api] print for a failure [e] of the
    fetch of [endpoint], and how the request then ends: both clauses go on
    to [send_error]. *)
Definition failure_log (endpoint : string) (e : Exn) : list Event :=
  if is_URLError e then
    [Print ("[ERROR] Failed to fetch " ++ endpoint ++ ": " ++ exn_str e)]
  else if is_Exception e then [Print ("[ERROR] " ++ exn_str e)]
  else [].

Definition failure_outcome (e : Exn) : Outcome unit :=
  if is_URLError e || is_Exception e then Raise no_startswith else Raise e.

(** The request object [handle_api] builds for [url]. *)
Definition fetch_request (url : string) : Request :=
  mkRequest url [("User-Agent", "OpenHamClock/1.0")] None.

(** The line [handle_api] prints before fetching [url], at clock reading
    [t]. *)
Definition fetch_line (env : Env) (t : nat) (url : string) : string :=
  "[" ++ strftime_HMS env t ++ "] Fetching: " ++ url.


(** An event of the tail of a proxy fetch: no further outbound call, and
    nothing printed but failure lines. *)
Definition after_fetch_ok (e : Event) : Prop :=
  match e with
  | Urlopen _ _ => False
  | Print line => PyStr.startswith line "[ERROR]" = true
  | _ => True
  end.

(** A file lookup, if the event is one, is below directory [d]. *)
Definition fs_lookup_in (d : string) (e : Event) : Prop :=
  match e with FsLookup d' _ => d' = d | _ => True end.

(** The path of [GET /api/<name>] with an optional query string. *)
Definition api_path (name : string) (query : option string) : string :=
  "/api/" ++ name ++ match query with None => EmptyString | Some q => "?" ++ q end.

(** What the claim of prefix stripping describes: drop the one leading
    ['/api/'] and cut at the first ['?']. Written from the specification, to
    be compared with [endpoint_of]. *)
Definition spec_endpoint_of (p : string) : string :=
  PyStr.split_head
    (if PyStr.startswith p "/api/" then String.substring 5 (String.length p - 5) p else p)
    "?".

(** ** Invariants and event properties of monadic code

    [hoare I P m]: from a world satisfying [I], [m] ends in a world
    satisfying [I] and every event it produces satisfies [P]. *)
Definition hoare {A} (I : World -> Prop) (P : Event -> Prop) (m : M A) : Prop :=
  forall w, I w -> I (world (m w)) /\ Forall P (events (m w)).

(** [I] does not look at the clock. *)
Definition tick_stable (I : World -> Prop) : Prop :=
  forall w, I w -> I (tick_world w).

(** The same with a precondition of its own: [m] establishes [I] from
    [Pre]. *)
Definition triple {A} (Pre I : World -> Prop) (P : Event -> Prop) (m : M A) : Prop :=
  forall w, Pre w -> I (world (m w)) /\ Forall P (events (m w)).

(** ** A sample environment, used to run the code on concrete requests *)
Module Sample.

Definition body : list byte := [x5b; x5d]%byte.

(** Upstream answers every fetch with a two-byte JSON array. *)
Definition env_ok : Env :=
  mkEnv (fun _ => "12:00:00") (fun _ => "Tue, 03 Nov 2026 12:00:00 GMT")
        "SimpleHTTP/0.6 Python/3.11.2"
        (fun _ _ _ => Return (mkResponse 200 [("content-type", "text/plain")] (Return body)))
        (fun _ _ _ => StaticError 404 "File not found")
        (fun _ _ => [])
        (fun _ => Return 9000)
        "/srv/openhamclock".

(** Every fetch fails in the transport. *)
Definition env_down : Env :=
  mkEnv (fun _ => "12:00:00") (fun _ => "Tue, 03 Nov 2026 12:00:00 GMT")
        "SimpleHTTP/0.6 Python/3.11.2"
        (fun _ _ _ => Raise (mkExn URLError "<urlopen error timed out>"))
        (fun _ _ _ => StaticError 404 "File not found")
        (fun _ _ => [])
        (fun _ => Return 9000)
        "/srv/openhamclock".

Definition w0 : World := mkWorld API_ENDPOINTS 8080 "/srv/openhamclock" O.

(** What the upstream answers when it has nothing under the URL: status
    404, with a JSON body that can be read. *)
Definition not_found : Response :=
  mkResponse 404 [("Content-Type", "application/json")] (Return body).

(** Every fetch reaches the upstream, which answers [not_found]. *)
Definition env_404 : Env :=
  mkEnv (fun _ => "12:00:00") (fun _ => "Tue, 03 Nov 2026 12:00:00 GMT")
        "SimpleHTTP/0.6 Python/3.11.2"
        (fun _ _ _ => http_error_processor "Not Found" not_found)
        (fun _ _ _ => StaticError 404 "File not found")
        (fun _ _ => [])
        (fun _ => Return 9000)
        "/srv/openhamclock".

(** The file system has an index page; fetches succeed, but reading the
    body fails. *)
Definition env_files : Env :=
  mkEnv (fun _ => "12:00:00") (fun _ => "Tue, 03 Nov 2026 12:00:00 GMT")
        "SimpleHTTP/0.6 Python/3.11.2"
        (fun _ _ _ => Return (mkResponse 200 [] (Raise (mkExn TimeoutError "timed out"))))
        (fun _ _ _ => StaticFile [("Content-type", "text/html"); ("Content-Length", "4")]
                                 [body; body; []])
        (fun _ _ => [])
        (fun _ => Return 9000)
        "/srv/openhamclock".

Definition get (p : string) : Handler :=
  mkHandler p ("GET " ++ p ++ " HTTP/1.1") "HTTP/1.1".

(** The same request sent the HTTP/0.9 way, without a version. *)
Definition get_0_9 (p : string) : Handler := mkHandler p ("GET " ++ p) "HTTP/0.9".

End Sample.

(** ** Further vocabulary for statements about paths and runs *)

(** [old in s]: [old] occurs somewhere in [s]. *)
Fixpoint occurs (old s : string) : bool :=
  match s with
  | EmptyString => String.prefix old EmptyString
  | String _ s' => String.prefix old s || occurs old s'
  end.

Definition is_Print (e : Event) : bool :=
  match e with Print _ => true | _ => false end.

(** An outbound call, if the event is one, is the fetch of a URL bound in
    [table], built the way [handle_api] builds it, with the timeout of 10
    seconds. *)
Definition fetches_from (table : PyDict) (e : Event) : Prop :=
  match e with
  | Urlopen req timeout =>
      timeout = 10
      /\ exists name url, dict_get table name = Some url /\ req = fetch_request url
  | _ => True
  end.

(** The response calls of a relayed upstream answer. *)
Definition relayed_response (env : Env) (date content_type : string) (data : list byte)
  : list Event :=
  [SendResponseOnly 200;
   SendHeader "Server" (version_string env);
   SendHeader "Date" date;
   SendHeader "Content-Type" content_type;
   SendHeader "Access-Control-Allow-Origin" "*";
   SendHeader "Cache-Control" "max-age=60";
   EndHeaders;
   WfileWrite data].

(** The line of the access log for a request line, at clock reading [t]. *)
Definition access_line (env : Env) (t : nat) (line : string) : string :=
  "[" ++ strftime_HMS env t ++ "] " ++ line.

(** What [main] prints before it creates the socket, for a table and a
    port. *)
Definition banner (env : Env) (table : PyDict) (port : Z) : list Event :=
  [Print (str_repeat "=" 50);
   Print "  OpenHamClock Development Server";
   Print (str_repeat "=" 50);
   Print EmptyString;
   Print ("  Serving from: " ++ script_dir env);
   Print ("  URL: http://localhost:" ++ PyStr.of_Z port);
   Print "  Press Ctrl+C to stop";
   Print EmptyString;
   Print "  Available API endpoints:"]
  ++ map (fun name => Print ("    /api/" ++ name)) (dict_keys table)
  ++ [Print EmptyString; Print (str_repeat "=" 50); Print EmptyString].

(** * Proofs *)

(** ** The string operations on concrete paths *)

Example replace_is_not_anchored :
  PyStr.replace "/static/api/x" "/api/" EmptyString = "/staticx".
Proof. reflexivity. Qed.

Example replace_does_not_overlap :
  PyStr.replace "/api/api/" "/api/" EmptyString = "api/".
Proof. reflexivity. Qed.

Example endpoint_of_plain :
  OpenHamClockHandler.endpoint_of "/api/kindex" = "kindex".
Proof. reflexivity. Qed.

Example endpoint_of_query :
  OpenHamClockHandler.endpoint_of "/api/kindex?a=1?b=2" = "kindex".
Proof. reflexivity. Qed.

Example endpoint_of_bare_prefix :
  OpenHamClockHandler.endpoint_of "/api/" = EmptyString.
Proof. reflexivity. Qed.

Example headers_get_any_case :
  headers_get [("Date", "x"); ("CONTENT-TYPE", "text/xml")] "Content-Type" "application/json"
  = "text/xml".
Proof. reflexivity. Qed.

Example PORT_given :
  PORT Sample.env_ok ["server.py"; "9000"] = Return 9000.
Proof. reflexivity. Qed.

(** ** Rules for [hoare] *)
Section HoareRules.

Context {A B : Type}.
Variable I : World -> Prop.
Variable P : Event -> Prop.

Lemma hoare_ret (a : A) : hoare I P (ret a).
Proof. intros w Hw; cbn; auto. Qed.

Lemma hoare_raise (e : Exn) : hoare I P (@raise A e).
Proof. intros w Hw; cbn; auto. Qed.

Lemma hoare_lift (o : Outcome A) : hoare I P (lift o).
Proof. intros w Hw; cbn; auto. Qed.

Lemma hoare_emit (e : Event) : P e -> hoare I P (emit e).
Proof. intros He w Hw; cbn; auto. Qed.

Lemma hoare_tick : tick_stable I -> hoare I P tick.
Proof. intros Ht w Hw; cbn; split; [apply Ht, Hw | constructor]. Qed.

Lemma hoare_bind (m : M A) (k : A -> M B) :
  hoare I P m -> (forall a, hoare I P (k a)) -> hoare I P (bind m k).
Proof.
  intros Hm Hk w Hw. unfold bind.
  destruct (Hm w Hw) as [Iw Ew].
  destruct (outcome (m w)) as [a|e]; cbn.
  - destruct (Hk a _ Iw) as [Iw' Ew']. split; [assumption|].
    apply Forall_app; split; assumption.
  - split; assumption.
Qed.

Lemma hoare_try_except (body : M A) (handler : Exn -> option (M A)) :
  hoare I P body ->
  (forall e h, handler e = Some h -> hoare I P h) ->
  hoare I P (try_except body handler).
Proof.
  intros Hb Hh w Hw. unfold try_except.
  destruct (Hb w Hw) as [Iw Ew].
  destruct (outcome (body w)) as [a|e]; cbn; [split; assumption|].
  destruct (handler e) as [h|] eqn:Eh; cbn; [|split; assumption].
  destruct (Hh e h Eh _ Iw) as [Iw' Ew']. split; [assumption|].
  apply Forall_app; split; assumption.
Qed.

Lemma hoare_read_API_ENDPOINTS (k : PyDict -> M B) :
  (forall d, hoare I P (k d)) -> hoare I P (bind read_API_ENDPOINTS k).
Proof. intros Hk w Hw. unfold bind; cbn. apply (Hk _ w Hw). Qed.

Lemma hoare_read_PORT (k : Z -> M B) :
  (forall p, hoare I P (k p)) -> hoare I P (bind read_PORT k).
Proof. intros Hk w Hw. unfold bind; cbn. apply (Hk _ w Hw). Qed.

(** The continuation only has to be right for the directory the world is
    really in. *)
Lemma hoare_getcwd (k : string -> M B) :
  (forall w, I w -> hoare I P (k (cwd w))) -> hoare I P (bind getcwd k).
Proof. intros Hk w Hw. unfold bind; cbn. apply (Hk w Hw w Hw). Qed.

End HoareRules.

Lemma hoare_for_each {X} I P (l : list X) (body : X -> M unit) :
  (forall x, hoare I P (body x)) -> hoare I P (for_each l body).
Proof.
  intros Hb. induction l as [|x l IH]; cbn.
  - apply hoare_ret.
  - apply hoare_bind; [apply Hb | intros _; apply IH].
Qed.

Create HintDb hoare.
#[local] Hint Resolve hoare_ret hoare_raise hoare_lift hoare_tick : hoare.

(** One step through a piece of handler code: sequencing, exception
    handling, reads of the globals, then the branches. *)
#[local] Ltac hoare_step :=
  first
    [ apply hoare_read_API_ENDPOINTS; intros ?
    | apply hoare_read_PORT; intros ?
    | apply hoare_bind; [ | intros ? ]
    | apply hoare_try_except; [ | intros ? ? ? ]
    | apply hoare_for_each; intros ?
    | apply hoare_emit; cbn; first [ exact Logic.I | lia | reflexivity | assumption ]
    | solve [ auto with hoare ] ].

(** ** The inherited methods under the override *)

Lemma log_message_int env self format n rest w :
  OpenHamClockHandler.log_message env self format (PyInt_ n :: rest) w
  = mkRun (Raise no_startswith) w [].
Proof. reflexivity. Qed.

Lemma send_error_raises env self code message w :
  OpenHamClockHandler.send_error env self code message w
  = mkRun (Raise no_startswith) w [].
Proof. reflexivity. Qed.

Lemma hoare_send_error env I P self code message :
  hoare I P (OpenHamClockHandler.send_error env self code message).
Proof. intros w Hw. rewrite send_error_raises. cbn. auto. Qed.

Lemma send_error_status_raises env self code message w :
  BaseHTTPRequestHandler.send_error_status env (OpenHamClockHandler.log_message env)
    self code message w
  = mkRun (Raise no_startswith_HTTPStatus) w [].
Proof. reflexivity. Qed.

Section HandlerRules.

Variable env : Env.
Variable I : World -> Prop.
Variable P : Event -> Prop.
Hypothesis I_tick : tick_stable I.
Hypothesis P_print : forall line, P (Print line).
Hypothesis P_header : forall k v, P (SendHeader k v).
Hypothesis P_end : P EndHeaders.
Hypothesis P_write : forall data, P (WfileWrite data).

Lemma hoare_log_message self format args :
  hoare I P (OpenHamClockHandler.log_message env self format args).
Proof.
  destruct args as [|[a0|n|n] rest]; cbn.
  - apply hoare_raise.
  - destruct (PyStr.startswith a0 "GET /api/"); [apply hoare_ret|].
    unfold OpenHamClockHandler.now_HMS, print.
    repeat hoare_step. apply hoare_emit, P_print.
  - apply hoare_raise.
  - apply hoare_raise.
Qed.

Lemma hoare_send_header self k v :
  hoare I P (BaseHTTPRequestHandler.send_header self k v).
Proof.
  unfold BaseHTTPRequestHandler.send_header.
  destruct (is_http_0_9 self); [apply hoare_ret | apply hoare_emit, P_header].
Qed.

Lemma hoare_end_headers self : hoare I P (BaseHTTPRequestHandler.end_headers self).
Proof.
  unfold BaseHTTPRequestHandler.end_headers.
  destruct (is_http_0_9 self); [apply hoare_ret | apply hoare_emit, P_end].
Qed.

Lemma hoare_copyfileobj reads : hoare I P (BaseHTTPRequestHandler.copyfileobj reads).
Proof.
  induction reads as [|[|b buf] rest IH]; cbn [BaseHTTPRequestHandler.copyfileobj];
    try apply hoare_ret.
  apply hoare_bind; [apply hoare_emit, P_write | intros _; exact IH].
Qed.

Lemma hoare_send_response self code :
  P (SendResponseOnly code) ->
  hoare I P (OpenHamClockHandler.send_response env self code).
Proof.
  intros Hc.
  unfold OpenHamClockHandler.send_response, BaseHTTPRequestHandler.send_response,
    BaseHTTPRequestHandler.log_request, BaseHTTPRequestHandler.send_response_only.
  apply hoare_bind; [apply hoare_log_message | intros _].
  apply hoare_bind;
    [destruct (is_http_0_9 self); [apply hoare_ret | apply hoare_emit, Hc] | intros _].
  apply hoare_bind; [apply hoare_send_header | intros _].
  apply hoare_bind; [apply hoare_tick, I_tick | intros t].
  apply hoare_send_header.
Qed.

Hypothesis P_enter_api : P (Enter "handle_api").
Hypothesis P_enter_static : P (Enter "SimpleHTTPRequestHandler.do_GET").
Hypothesis P_urlopen : forall req timeout, P (Urlopen req timeout).
Hypothesis P_status :
  forall c, c = 200 \/ c = 301 \/ c = 304 -> P (SendResponseOnly c).
Hypothesis P_fs : forall w p, I w -> P (FsLookup (cwd w) p).
Hypothesis P_handle_error : forall e, P (HandleError e).

Lemma hoare_handle_api self :
  hoare I P (OpenHamClockHandler.handle_api env self).
Proof.
  unfold OpenHamClockHandler.handle_api.
  apply hoare_bind; [apply hoare_emit, P_enter_api | intros _].
  apply hoare_read_API_ENDPOINTS; intros table.
  destruct (dict_get table _) as [url|]; [|apply hoare_send_error].
  apply hoare_try_except.
  - unfold OpenHamClockHandler.now_HMS, OpenHamClockHandler.urlopen, print,
      OpenHamClockHandler.send_header, OpenHamClockHandler.end_headers,
      OpenHamClockHandler.wfile_write, BaseHTTPRequestHandler.wfile_write.
    apply hoare_bind; [repeat hoare_step | intros ts].
    apply hoare_bind; [apply hoare_emit, P_print | intros _].
    apply hoare_bind; [|intros response].
    { apply hoare_bind; [apply hoare_emit, P_urlopen | intros _].
      repeat hoare_step. }
    apply hoare_bind; [apply hoare_lift | intros data].
    apply hoare_bind; [apply hoare_send_response; auto | intros _].
    repeat (apply hoare_bind; [apply hoare_send_header | intros _]).
    apply hoare_bind; [apply hoare_end_headers | intros _].
    apply hoare_emit; auto.
  - intros e h Hh.
    destruct (is_URLError e); [|destruct (is_Exception e); [|discriminate]];
      injection Hh as <-;
      (apply hoare_bind; [apply hoare_emit, P_print | intros _; apply hoare_send_error]).
Qed.

Lemma hoare_static_do_GET self :
  hoare I P (SimpleHTTPRequestHandler.do_GET env (OpenHamClockHandler.log_message env) self).
Proof.
  unfold SimpleHTTPRequestHandler.do_GET.
  apply hoare_bind; [apply hoare_emit, P_enter_static | intros _].
  apply hoare_getcwd; intros w0 Hw0.
  apply hoare_bind; [apply hoare_tick, I_tick | intros t].
  apply hoare_bind; [apply hoare_emit, P_fs, Hw0 | intros _].
  destruct (send_head_result env t (cwd w0) (path self)) as [hdrs reads|location| |code message].
  - apply hoare_bind; [apply hoare_send_response; auto | intros _].
    apply hoare_bind; [apply hoare_for_each; intros kv; apply hoare_send_header | intros _].
    apply hoare_bind; [apply hoare_end_headers | intros _].
    apply hoare_copyfileobj.
  - apply hoare_bind; [apply hoare_send_response; auto | intros _].
    repeat (apply hoare_bind; [apply hoare_send_header | intros _]).
    apply hoare_end_headers.
  - apply hoare_bind; [apply hoare_send_response; auto | intros _].
    apply hoare_end_headers.
  - intros w Hw. rewrite send_error_status_raises. cbn. auto.
Qed.

Lemma hoare_do_GET self : hoare I P (OpenHamClockHandler.do_GET env self).
Proof.
  unfold OpenHamClockHandler.do_GET.
  destruct (PyStr.startswith (path self) "/api/");
    [apply hoare_handle_api | apply hoare_static_do_GET].
Qed.

Lemma hoare_serve_forever requests : hoare I P (serve_forever env requests).
Proof.
  induction requests as [|self rest IH]; cbn; [apply hoare_ret|].
  apply hoare_bind; [|intros _; apply IH].
  apply hoare_try_except; [apply hoare_do_GET|].
  intros e h Hh. destruct (is_Exception e); [|discriminate].
  injection Hh as <-. apply hoare_emit, P_handle_error.
Qed.

End HandlerRules.

Lemma triple_bind {A B} Pre I P (m : M A) (k : A -> M B) :
  triple Pre I P m -> (forall a, hoare I P (k a)) -> triple Pre I P (bind m k).
Proof.
  intros Hm Hk w Hw. unfold bind.
  destruct (Hm w Hw) as [Iw Ew].
  destruct (outcome (m w)) as [a|e]; cbn; [|split; assumption].
  destruct (Hk a _ Iw) as [Iw' Ew']. split; [assumption|].
  apply Forall_app; split; assumption.
Qed.

Section ProgramRules.

Variable env : Env.
Variable Pre I : World -> Prop.
Variable P : Event -> Prop.
Hypothesis Pre_chdir :
  forall w, Pre w ->
    I (mkWorld (mod_API_ENDPOINTS w) (mod_PORT w) (script_dir env) (ticks w)).
Hypothesis I_tick : tick_stable I.
Hypothesis P_print : forall line, P (Print line).
Hypothesis P_header : forall k v, P (SendHeader k v).
Hypothesis P_end : P EndHeaders.
Hypothesis P_write : forall data, P (WfileWrite data).
Hypothesis P_enter : forall m, P (Enter m).
Hypothesis P_urlopen : forall req timeout, P (Urlopen req timeout).
Hypothesis P_status :
  forall c, c = 200 \/ c = 301 \/ c = 304 -> P (SendResponseOnly c).
Hypothesis P_fs : forall w p, I w -> P (FsLookup (cwd w) p).
Hypothesis P_handle_error : forall e, P (HandleError e).
Hypothesis P_chdir : forall d, P (Chdir d).
Hypothesis P_bind : forall h p, P (Bind h p).

Lemma triple_main_startup : triple Pre I P (main_startup env).
Proof.
  unfold main_startup, print.
  apply triple_bind.
  { intros w Hw; cbn. split; [apply Pre_chdir, Hw | auto]. }
  intros _.
  repeat (apply hoare_bind; [apply hoare_emit, P_print | intros _]).
  apply hoare_read_PORT; intros port.
  repeat (apply hoare_bind; [apply hoare_emit, P_print | intros _]).
  apply hoare_read_API_ENDPOINTS; intros table.
  apply hoare_bind;
    [apply hoare_for_each; intros kv; apply hoare_emit, P_print | intros _].
  repeat (apply hoare_bind; [apply hoare_emit, P_print | intros _]).
  apply hoare_emit, P_bind.
Qed.

Lemma triple_main requests : triple Pre I P (main env requests).
Proof.
  unfold main.
  apply triple_bind; [apply triple_main_startup | intros _].
  apply hoare_try_except; [apply hoare_serve_forever; auto|].
  intros e h Hh. destruct (exn_class e); try discriminate.
  injection Hh as <-. apply hoare_emit, P_print.
Qed.

End ProgramRules.

(** ** Error responses *)


(** ** The endpoint table *)


(** ** The listening port *)

(** C10: when the command line has an argument after the script name, [PORT]
    is that argument read by [int]; with the script name alone it is 8080.
    The global is bound to that value, and the socket [main] creates, the last
    thing start-up does, listens on it. *)
Theorem PORT_from_argv (env : Env) :
  (forall prog arg rest, PORT env (prog :: arg :: rest) = py_int env arg)
  /\ (forall prog, PORT env [prog] = Return 8080)
  /\ (forall argv dir,
        match module_init env argv dir with
        | Return w =>
            PORT env argv = Return (mod_PORT w)
            /\ last (events (main_startup env w)) (Enter EmptyString)
               = Bind EmptyString (mod_PORT w)
            /\ List.filter (fun e => match e with Bind _ _ => true | _ => false end)
                 (events (main_startup env w))
               = [Bind EmptyString (mod_PORT w)]
        | Raise e => PORT env argv = Raise e
        end).
Proof.
  split; [reflexivity|]. split; [reflexivity|].
  intros argv dir. unfold module_init.
  destruct (PORT env argv) as [p|e]; [|reflexivity].
  split; [reflexivity|]. split; reflexivity.
Qed.

(** ** Routing *)

Lemma existsb_not_handle_api evs :
  Forall not_handle_api evs -> existsb is_Enter_handle_api evs = false.
Proof.
  induction 1 as [|e evs He _ IH]; [reflexivity|].
  cbn. rewrite He, IH. reflexivity.
Qed.

Lemma static_do_GET_head env self w :
  exists rest,
    events (SimpleHTTPRequestHandler.do_GET env (OpenHamClockHandler.log_message env) self w)
    = Enter "SimpleHTTPRequestHandler.do_GET" :: FsLookup (cwd w) (path self) :: rest.
Proof.
  unfold SimpleHTTPRequestHandler.do_GET. eexists. reflexivity.
Qed.

(** C7: a GET request enters the proxy handler exactly when its path starts
    with ['/api/']. Any other request is the inherited static [do_GET] run
    on the same handler object, so on the unchanged path, and its first act
    is a lookup of that path below the working directory. In a run of
    [main], from any world, every such lookup is below the directory of the
    script, where [main] has moved before serving. *)
Theorem do_GET_routes (env : Env) (self : Handler) (w : World) :
  existsb is_Enter_handle_api (events (OpenHamClockHandler.do_GET env self w))
  = PyStr.startswith (path self) "/api/"
  /\ (if PyStr.startswith (path self) "/api/"
      then OpenHamClockHandler.do_GET env self w = OpenHamClockHandler.handle_api env self w
      else OpenHamClockHandler.do_GET env self w
           = SimpleHTTPRequestHandler.do_GET env (OpenHamClockHandler.log_message env) self w
           /\ exists rest,
               events (OpenHamClockHandler.do_GET env self w)
               = Enter "SimpleHTTPRequestHandler.do_GET"
                   :: FsLookup (cwd w) (path self) :: rest)
  /\ (forall requests,
        Forall (fs_lookup_in (script_dir env)) (events (main env requests w))
        /\ cwd (world (main env requests w)) = script_dir env).
Proof.
  split; [|split].
  - unfold OpenHamClockHandler.do_GET.
    destruct (PyStr.startswith (path self) "/api/").
    + unfold OpenHamClockHandler.handle_api. reflexivity.
    + apply existsb_not_handle_api.
      apply (hoare_static_do_GET env (fun _ => True) not_handle_api);
        unfold tick_stable, not_handle_api; cbn; auto.
  - unfold OpenHamClockHandler.do_GET.
    destruct (PyStr.startswith (path self) "/api/"); [reflexivity|].
    split; [reflexivity | apply static_do_GET_head].
  - intros requests.
    destruct (triple_main env (fun _ => True) (fun w' => cwd w' = script_dir env)
                (fs_lookup_in (script_dir env))) with (requests := requests) (w := w)
      as [Hc He]; unfold tick_stable; cbn; auto.
Qed.

(** ** Resolution of the endpoint name *)

Lemma table_key name url :
  dict_get API_ENDPOINTS name = Some url ->
  In (name, url) API_ENDPOINTS.
Proof.
  unfold API_ENDPOINTS; cbn.
  repeat match goal with
         | |- context [String.eqb name ?k] =>
             destruct (String.eqb_spec name k) as [->|_];
             [intros [= <-]; auto 10|]
         end.
  discriminate.
Qed.

Lemma prefix_empty s : String.prefix EmptyString s = true.
Proof. destruct s; reflexivity. Qed.

(** The six names resolve to themselves, whatever query string follows. *)
Lemma endpoint_of_api_path name url query :
  dict_get API_ENDPOINTS name = Some url ->
  OpenHamClockHandler.endpoint_of (api_path name query) = name.
Proof.
  intros H. apply table_key in H. cbn in H.
  repeat (destruct H as [[= <- <-]|H];
          [destruct query; cbn; rewrite ?prefix_empty; reflexivity|]).
  contradiction.
Qed.

Lemma api_path_startswith name query :
  PyStr.startswith (api_path name query) "/api/" = true.
Proof. cbn. apply prefix_empty. Qed.

(** ** Running handler code step by step *)

Lemma bind_run {A B} (m : M A) (k : A -> M B) w a w' evs :
  m w = mkRun (Return a) w' evs -> bind m k w = prepend evs (k a w').
Proof. intros H. unfold bind. rewrite H. reflexivity. Qed.

Lemma bind_fail {A B} (m : M A) (k : A -> M B) w e w' evs :
  m w = mkRun (Raise e) w' evs -> bind m k w = mkRun (Raise e) w' evs.
Proof. intros H. unfold bind. rewrite H. reflexivity. Qed.

Lemma try_except_run {A} (body : M A) handler w a w' evs :
  body w = mkRun (Return a) w' evs -> try_except body handler w = mkRun (Return a) w' evs.
Proof. intros H. unfold try_except. rewrite H. reflexivity. Qed.

Lemma try_except_caught {A} (body : M A) handler w e w' evs h :
  body w = mkRun (Raise e) w' evs -> handler e = Some h ->
  try_except body handler w = prepend evs (h w').
Proof. intros H Hh. unfold try_except. rewrite H. cbn. rewrite Hh. reflexivity. Qed.

Lemma try_except_escapes {A} (body : M A) handler w e w' evs :
  body w = mkRun (Raise e) w' evs -> handler e = None ->
  try_except body handler w = mkRun (Raise e) w' evs.
Proof. intros H Hh. unfold try_except. rewrite H. cbn. rewrite Hh. reflexivity. Qed.

Lemma prepend_prepend {A} evs1 evs2 (r : Run A) :
  prepend evs1 (prepend evs2 r) = prepend (evs1 ++ evs2) r.
Proof. unfold prepend; cbn. now rewrite app_assoc. Qed.

Lemma prepend_mkRun {A} evs (o : Outcome A) w evs' :
  prepend evs (mkRun o w evs') = mkRun o w (evs ++ evs').
Proof. reflexivity. Qed.

(** What [send_response] does, by whether the access log is silenced for
    this request line. *)
Lemma send_response_run env self code w :
  OpenHamClockHandler.send_response env self code w
  = if PyStr.startswith (requestline self) "GET /api/"
    then mkRun (Return tt) (tick_world w)
           (head_calls self
              [SendResponseOnly code; SendHeader "Server" (version_string env);
               SendHeader "Date" (date_time_string env (ticks w))])
    else mkRun (Return tt) (tick_world (tick_world w))
           (Print ("[" ++ strftime_HMS env (ticks w) ++ "] " ++ requestline self)
            :: head_calls self
                 [SendResponseOnly code; SendHeader "Server" (version_string env);
                  SendHeader "Date" (date_time_string env (S (ticks w)))]).
Proof.
  unfold OpenHamClockHandler.send_response, BaseHTTPRequestHandler.send_response,
    BaseHTTPRequestHandler.log_request, OpenHamClockHandler.log_message,
    BaseHTTPRequestHandler.send_response_only, BaseHTTPRequestHandler.send_header,
    head_calls.
  destruct (PyStr.startswith (requestline self) "GET /api/"), (is_http_0_9 self);
    reflexivity.
Qed.

(** The part of the try body after the fetch: the five response calls and
    the write. *)
Lemma relay_run env self ct data w :
  exists line date,
    (if PyStr.startswith (requestline self) "GET /api/"
     then line = []
     else line = [Print ("[" ++ strftime_HMS env (ticks w) ++ "] " ++ requestline self)])
    /\ bind (OpenHamClockHandler.send_response env self 200) (fun _ =>
         bind (OpenHamClockHandler.send_header self "Content-Type" ct) (fun _ =>
         bind (OpenHamClockHandler.send_header self "Access-Control-Allow-Origin" "*")
              (fun _ =>
         bind (OpenHamClockHandler.send_header self "Cache-Control" "max-age=60") (fun _ =>
         bind (OpenHamClockHandler.end_headers self) (fun _ =>
              OpenHamClockHandler.wfile_write data))))) w
       = mkRun (Return tt)
           (if PyStr.startswith (requestline self) "GET /api/"
            then tick_world w else tick_world (tick_world w))
           (line ++
            head_calls self
              [SendResponseOnly 200; SendHeader "Server" (version_string env);
               SendHeader "Date" date;
               SendHeader "Content-Type" ct;
               SendHeader "Access-Control-Allow-Origin" "*";
               SendHeader "Cache-Control" "max-age=60";
               EndHeaders]
            ++ [WfileWrite data]).
Proof.
  pose proof (send_response_run env self 200 w) as H.
  destruct (PyStr.startswith (requestline self) "GET /api/");
    do 2 eexists; (split; [reflexivity|]);
    rewrite (bind_run _ _ _ _ _ _ H);
    unfold OpenHamClockHandler.send_header, OpenHamClockHandler.end_headers,
      BaseHTTPRequestHandler.send_header, BaseHTTPRequestHandler.end_headers, head_calls;
    destruct (is_http_0_9 self); reflexivity.
Qed.

Lemma urlopen_run env req timeout w :
  OpenHamClockHandler.urlopen env req timeout w
  = mkRun (urlopen_result env (ticks w) req timeout) (tick_world w) [Urlopen req timeout].
Proof.
  unfold OpenHamClockHandler.urlopen, bind, lift, emit, tick; cbn.
  destruct (urlopen_result env (ticks w) req timeout); reflexivity.
Qed.

(** The path is not in the table: [handle_api] goes straight to
    [send_error]. *)
Lemma handle_api_unknown env self w :
  dict_get (mod_API_ENDPOINTS w) (OpenHamClockHandler.endpoint_of (path self)) = None ->
  OpenHamClockHandler.handle_api env self w
  = mkRun (Raise no_startswith) w [Enter "handle_api"].
Proof.
  intros Hd. unfold OpenHamClockHandler.handle_api.
  rewrite (bind_run _ _ w tt w [Enter "handle_api"] eq_refl).
  rewrite (bind_run _ _ w (mod_API_ENDPOINTS w) w [] eq_refl).
  cbv beta. rewrite Hd. reflexivity.
Qed.

(** The fetch and the read succeed: the response is relayed. *)
Lemma handle_api_relay env self w url resp data :
  dict_get (mod_API_ENDPOINTS w) (OpenHamClockHandler.endpoint_of (path self)) = Some url ->
  urlopen_result env (S (ticks w)) (fetch_request url) 10 = Return resp ->
  read resp = Return data ->
  exists line date w',
    (if PyStr.startswith (requestline self) "GET /api/"
     then line = []
     else line = [Print ("[" ++ strftime_HMS env (S (S (ticks w))) ++ "] " ++ requestline self)])
    /\ OpenHamClockHandler.handle_api env self w
       = mkRun (Return tt) w'
           ([Enter "handle_api"; Print (fetch_line env (ticks w) url);
             Urlopen (fetch_request url) 10]
            ++ line ++
            head_calls self
              [SendResponseOnly 200; SendHeader "Server" (version_string env);
               SendHeader "Date" date;
               SendHeader "Content-Type"
                 (headers_get (headers resp) "Content-Type" "application/json");
               SendHeader "Access-Control-Allow-Origin" "*";
               SendHeader "Cache-Control" "max-age=60";
               EndHeaders]
            ++ [WfileWrite data]).
Proof.
  intros Hd Hu Hr.
  destruct (relay_run env self
              (headers_get (headers resp) "Content-Type" "application/json")
              data (tick_world (tick_world w))) as (line & date & Hline & Hrelay).
  exists line, date. eexists. split; [exact Hline|].
  unfold OpenHamClockHandler.handle_api.
  rewrite (bind_run _ _ w tt w [Enter "handle_api"] eq_refl).
  rewrite (bind_run _ _ w (mod_API_ENDPOINTS w) w [] eq_refl).
  cbv beta. rewrite Hd.
  erewrite try_except_run; cycle 1.
  { rewrite (bind_run _ _ w (strftime_HMS env (ticks w)) (tick_world w) [] eq_refl).
    rewrite (bind_run _ _ (tick_world w) tt (tick_world w)
               [Print (fetch_line env (ticks w) url)] eq_refl).
    rewrite (bind_run _ _ (tick_world w) resp (tick_world (tick_world w))
               [Urlopen (fetch_request url) 10])
      by (rewrite urlopen_run; cbn [ticks tick_world]; fold (fetch_request url);
          rewrite Hu; reflexivity).
    rewrite (bind_run _ _ (tick_world (tick_world w)) data (tick_world (tick_world w)) [])
      by (unfold lift; rewrite Hr; reflexivity).
    rewrite Hrelay. reflexivity. }
  reflexivity.
Qed.

(** The fetch or the read raises [e]: the matching [except] clause prints
    and calls [send_error], which raises in [log_message]. *)
Lemma handle_api_failed env self w url e :
  dict_get (mod_API_ENDPOINTS w) (OpenHamClockHandler.endpoint_of (path self)) = Some url ->
  (urlopen_result env (S (ticks w)) (fetch_request url) 10 = Raise e
   \/ exists resp,
        urlopen_result env (S (ticks w)) (fetch_request url) 10 = Return resp
        /\ read resp = Raise e) ->
  OpenHamClockHandler.handle_api env self w
  = mkRun (failure_outcome e) (tick_world (tick_world w))
      ([Enter "handle_api"; Print (fetch_line env (ticks w) url);
        Urlopen (fetch_request url) 10]
       ++ failure_log (OpenHamClockHandler.endpoint_of (path self)) e).
Proof.
  intros Hd Hf.
  unfold OpenHamClockHandler.handle_api.
  rewrite (bind_run _ _ w tt w [Enter "handle_api"] eq_refl).
  rewrite (bind_run _ _ w (mod_API_ENDPOINTS w) w [] eq_refl).
  cbv beta. rewrite Hd.
  match goal with
  | |- prepend _ (prepend _ (try_except ?b ?h w)) = _ =>
      assert (Hb : b w = mkRun (Raise e) (tick_world (tick_world w))
                           [Print (fetch_line env (ticks w) url);
                            Urlopen (fetch_request url) 10])
  end.
  { rewrite (bind_run _ _ w (strftime_HMS env (ticks w)) (tick_world w) [] eq_refl).
    rewrite (bind_run _ _ (tick_world w) tt (tick_world w)
               [Print (fetch_line env (ticks w) url)] eq_refl).
    destruct Hf as [Hu | (resp & Hu & Hr)].
    - rewrite (bind_fail _ _ (tick_world w) e (tick_world (tick_world w))
                 [Urlopen (fetch_request url) 10])
        by (rewrite urlopen_run; cbn [ticks tick_world]; fold (fetch_request url);
            rewrite Hu; reflexivity).
      reflexivity.
    - rewrite (bind_run _ _ (tick_world w) resp (tick_world (tick_world w))
                 [Urlopen (fetch_request url) 10])
        by (rewrite urlopen_run; cbn [ticks tick_world]; fold (fetch_request url);
            rewrite Hu; reflexivity).
      rewrite (bind_fail _ _ (tick_world (tick_world w)) e (tick_world (tick_world w)) [])
        by (unfold lift; rewrite Hr; reflexivity).
      reflexivity. }
  unfold failure_outcome, failure_log.
  destruct (is_URLError e) eqn:EU; [|destruct (is_Exception e) eqn:EE].
  - erewrite try_except_caught; [|exact Hb|rewrite EU; reflexivity]. reflexivity.
  - erewrite try_except_caught; [|exact Hb|rewrite EU, EE; reflexivity]. reflexivity.
  - erewrite try_except_escapes; [|exact Hb|rewrite EU, EE; reflexivity]. reflexivity.
Qed.

(** ** The proxy handler *)

Lemma headers_get_find hs default :
  headers_get hs "Content-Type" default
  = match find (fun kv => String.eqb (PyStr.lower (fst kv)) "content-type") hs with
    | Some kv => snd kv
    | None => default
    end.
Proof.
  induction hs as [|[k v] hs IH]; [reflexivity|].
  cbn [headers_get find fst snd].
  change (PyStr.lower "Content-Type") with "content-type".
  destruct (String.eqb (PyStr.lower k) "content-type"); [reflexivity | exact IH].
Qed.

(** C1, at the request of the specification's example. [GET /api/unknown]
    names no key of the table, and no outbound call is made; but the request
    ends in the AttributeError of [log_message], and not one response call
    has been made: no 404 is sent. *)
Theorem unknown_endpoint_sends_nothing (env : Env) (port : Z) (dir : string) (t : nat) :
  let w := mkWorld API_ENDPOINTS port dir t in
  let r := OpenHamClockHandler.do_GET env (Sample.get "/api/unknown") w in
  dict_get API_ENDPOINTS (OpenHamClockHandler.endpoint_of "/api/unknown") = None
  /\ r = mkRun (Raise no_startswith) w [Enter "handle_api"]
  /\ List.filter is_response_event (events r) = []
  /\ List.filter is_Urlopen (events r) = [].
Proof.
  cbv zeta.
  assert (H : OpenHamClockHandler.do_GET env (Sample.get "/api/unknown")
                (mkWorld API_ENDPOINTS port dir t)
              = mkRun (Raise no_startswith) (mkWorld API_ENDPOINTS port dir t)
                  [Enter "handle_api"]).
  { unfold OpenHamClockHandler.do_GET. cbn [path Sample.get].
    change (PyStr.startswith "/api/unknown" "/api/") with true. cbv iota.
    apply handle_api_unknown. reflexivity. }
  rewrite H. repeat split; reflexivity.
Qed.

(** C2, at [GET /api/pota] when the fetch fails. Whether [urlopen] raises a
    URLError or another exception, the failure is printed, and then the
    request ends in the AttributeError of [log_message] with no response
    call made: neither a 502 nor a 500 is sent. *)
Theorem upstream_failure_sends_nothing
    (clock date : nat -> string) (version : string)
    (fs : nat -> string -> string -> StaticOutcome) (page : Z -> string -> list byte)
    (int : string -> Outcome Z) (sdir : string)
    (cls : ExnClass) (text : string) (port : Z) (dir : string) (t : nat) :
  let e := mkExn cls text in
  let env := mkEnv clock date version (fun _ _ _ => Raise e) fs page int sdir in
  let w := mkWorld API_ENDPOINTS port dir t in
  let r := OpenHamClockHandler.do_GET env (Sample.get "/api/pota") w in
  events r
  = [Enter "handle_api";
     Print (fetch_line env t "https://api.pota.app/spot/activator");
     Urlopen (fetch_request "https://api.pota.app/spot/activator") 10]
    ++ failure_log "pota" e
  /\ outcome r = (match cls with KeyboardInterrupt => Raise e | _ => Raise no_startswith end)
  /\ List.filter is_response_event (events r) = [].
Proof.
  cbv zeta.
  set (e := mkExn cls text).
  set (env := mkEnv clock date version (fun _ _ _ => Raise e) fs page int sdir).
  set (w := mkWorld API_ENDPOINTS port dir t).
  assert (H : OpenHamClockHandler.do_GET env (Sample.get "/api/pota") w
              = mkRun (failure_outcome e) (tick_world (tick_world w))
                  ([Enter "handle_api";
                    Print (fetch_line env (ticks w) "https://api.pota.app/spot/activator");
                    Urlopen (fetch_request "https://api.pota.app/spot/activator") 10]
                   ++ failure_log "pota" e)).
  { unfold OpenHamClockHandler.do_GET. cbn [path Sample.get].
    change (PyStr.startswith "/api/pota" "/api/") with true. cbv iota.
    apply (handle_api_failed env (Sample.get "/api/pota") w
             "https://api.pota.app/spot/activator" e); [reflexivity | left; reflexivity]. }
  rewrite H. cbn [events outcome ticks w].
  split; [reflexivity|].
  split; destruct cls; reflexivity.
Qed.

Lemma http_error_processor_returns msg answer resp :
  http_error_processor msg answer = Return resp ->
  resp = answer /\ 200 <= status resp < 300.
Proof.
  unfold http_error_processor.
  destruct ((200 <=? status answer) && (status answer <? 300)) eqn:E; [|discriminate].
  intros [= <-]. apply andb_true_iff in E. destruct E as [E1 E2].
  apply Z.leb_le in E1. apply Z.ltb_lt in E2. auto.
Qed.

(** C3, as the claim reads, fails in three ways, each at a request for
    [/api/pota].
    The upstream is reached and answers 404 with a body that can be read:
    [urlopen] raises HTTPError, the body is never read, and no response call
    is made; nothing is relayed as a 200.
    The upstream answers 200 and the answer is relayed: the headers sent are
    five, the two of [send_response] before the handler's three.
    The same for a request line without a version (HTTP/0.9): the body is
    written, with no status line and no header at all. *)
Lemma relay_as_stated_fails :
  (read Sample.not_found = Return Sample.body
   /\ urlopen_result Sample.env_404 1
        (fetch_request "https://api.pota.app/spot/activator") 10
      = Raise (mkExn HTTPError "HTTP Error 404: Not Found")
   /\ List.filter is_response_event
        (events (OpenHamClockHandler.do_GET Sample.env_404 (Sample.get "/api/pota")
                   Sample.w0)) = []
   /\ outcome (OpenHamClockHandler.do_GET Sample.env_404 (Sample.get "/api/pota") Sample.w0)
      = Raise no_startswith)
  /\ (outcome (OpenHamClockHandler.do_GET Sample.env_ok (Sample.get "/api/pota") Sample.w0)
      = Return tt
      /\ header_names
           (events (OpenHamClockHandler.do_GET Sample.env_ok (Sample.get "/api/pota")
                      Sample.w0))
         = ["Server"; "Date"; "Content-Type"; "Access-Control-Allow-Origin";
            "Cache-Control"])
  /\ (outcome (OpenHamClockHandler.do_GET Sample.env_ok (Sample.get_0_9 "/api/pota")
                 Sample.w0)
      = Return tt
      /\ List.filter is_response_event
           (events (OpenHamClockHandler.do_GET Sample.env_ok (Sample.get_0_9 "/api/pota")
                      Sample.w0))
         = [WfileWrite Sample.body]).
Proof. vm_compute. repeat split. Qed.

(** C3, amended: when the request has a version (is not HTTP/0.9), its
    path is under ['/api/'] and resolves to a URL, [urlopen] returns a
    response object (its status is never looked at; urllib returns one only
    for a status from 200 to 299) and reading it gives [data], the request
    ends normally and the response calls are, in order: status 200 with the
    two headers [send_response] adds itself (Server, Date), then
    Content-Type with the upstream value of that header, found
    case-insensitively, or application/json when upstream has none, then
    Access-Control-Allow-Origin: * and Cache-Control: max-age=60, the end of
    the headers, and [data] unchanged. The calls are those of a client that
    stays connected, as everywhere here. *)
Theorem relay_on_success (env : Env) (self : Handler) (w : World)
    (url : string) (resp : Response) (data : list byte) :
  is_http_0_9 self = false ->
  PyStr.startswith (path self) "/api/" = true ->
  dict_get (mod_API_ENDPOINTS w) (OpenHamClockHandler.endpoint_of (path self)) = Some url ->
  urlopen_result env (S (ticks w)) (fetch_request url) 10 = Return resp ->
  read resp = Return data ->
  outcome (OpenHamClockHandler.do_GET env self w) = Return tt
  /\ exists date,
       List.filter is_response_event (events (OpenHamClockHandler.do_GET env self w))
       = [SendResponseOnly 200;
          SendHeader "Server" (version_string env);
          SendHeader "Date" date;
          SendHeader "Content-Type"
            (match find (fun kv => String.eqb (PyStr.lower (fst kv)) "content-type")
                        (headers resp) with
             | Some kv => snd kv
             | None => "application/json"
             end);
          SendHeader "Access-Control-Allow-Origin" "*";
          SendHeader "Cache-Control" "max-age=60";
          EndHeaders;
          WfileWrite data].
Proof.
  intros Hv Hp Hd Hu Hr.
  unfold OpenHamClockHandler.do_GET. rewrite Hp.
  destruct (handle_api_relay env self w url resp data Hd Hu Hr)
    as (line & date & w' & Hline & ->).
  cbn [outcome events]. split; [reflexivity|].
  exists date. rewrite <- headers_get_find. unfold head_calls. rewrite Hv.
  destruct (PyStr.startswith (requestline self) "GET /api/"); subst line; reflexivity.
Qed.

Lemma relay_on_success_witness :
  is_http_0_9 (Sample.get "/api/kindex?limit=5") = false
  /\ outcome (OpenHamClockHandler.do_GET Sample.env_ok (Sample.get "/api/kindex?limit=5")
                 Sample.w0)
     = Return tt
  /\ exists date,
       List.filter is_response_event
         (events (OpenHamClockHandler.do_GET Sample.env_ok
                    (Sample.get "/api/kindex?limit=5") Sample.w0))
       = [SendResponseOnly 200;
          SendHeader "Server" "SimpleHTTP/0.6 Python/3.11.2";
          SendHeader "Date" date;
          SendHeader "Content-Type" "text/plain";
          SendHeader "Access-Control-Allow-Origin" "*";
          SendHeader "Cache-Control" "max-age=60";
          EndHeaders;
          WfileWrite Sample.body].
Proof.
  split; [reflexivity|].
  apply (relay_on_success Sample.env_ok (Sample.get "/api/kindex?limit=5") Sample.w0
           "https://services.swpc.noaa.gov/json/planetary_k_index_1m.json"
           (mkResponse 200 [("content-type", "text/plain")] (Return Sample.body))
           Sample.body);
    reflexivity.
Defined.

(** C4: for a key [name] of the table, bound to [url], and any query string
    or none, the request [GET /api/<name>[?query]] makes exactly one outbound
    call, whatever comes of it (a response, a failed read, an exception of any
    class): a GET of [url] itself, nothing of the query in it, with the one
    header User-Agent: OpenHamClock/1.0 and the timeout of 10 seconds. *)
Theorem one_outbound_get (env : Env) (name url : string) (query : option string)
    (line version : string) (w : World) :
  dict_get API_ENDPOINTS name = Some url ->
  mod_API_ENDPOINTS w = API_ENDPOINTS ->
  let req := fetch_request url in
  List.filter is_Urlopen
    (events (OpenHamClockHandler.do_GET env
               (mkHandler (api_path name query) line version) w))
  = [Urlopen req 10]
  /\ full_url req = url
  /\ req_headers req = [("User-Agent", "OpenHamClock/1.0")]
  /\ get_method req = "GET".
Proof.
  intros Hk Hw req. split; [|repeat split].
  set (self := mkHandler (api_path name query) line version).
  assert (Hd : dict_get (mod_API_ENDPOINTS w)
                 (OpenHamClockHandler.endpoint_of (path self)) = Some url).
  { cbn [path self]. rewrite (endpoint_of_api_path name url query Hk), Hw. exact Hk. }
  unfold OpenHamClockHandler.do_GET.
  cbn [path self]. rewrite api_path_startswith. fold self.
  destruct (urlopen_result env (S (ticks w)) (fetch_request url) 10) as [resp|e] eqn:Hu.
  - destruct (read resp) as [data|e] eqn:Hr.
    + destruct (handle_api_relay env self w url resp data Hd Hu Hr)
        as (logged & date & w' & Hlogged & ->).
      cbn [events]. unfold head_calls.
      destruct (PyStr.startswith (requestline self) "GET /api/"), (is_http_0_9 self);
        subst logged; reflexivity.
    + rewrite (handle_api_failed env self w url e Hd) by (right; eauto).
      cbn [events]. unfold failure_log.
      destruct (is_URLError e), (is_Exception e); reflexivity.
  - rewrite (handle_api_failed env self w url e Hd) by (left; exact Hu).
    cbn [events]. unfold failure_log.
    destruct (is_URLError e), (is_Exception e); reflexivity.
Qed.

Lemma one_outbound_get_witness :
  dict_get API_ENDPOINTS "xray"
  = Some "https://services.swpc.noaa.gov/json/goes/primary/xrays-7-day.json"
  /\ List.filter is_Urlopen
       (events (OpenHamClockHandler.do_GET Sample.env_down
                  (mkHandler (api_path "xray" (Some "days=7&url=/api/pota"))
                             "GET /api/xray?days=7&url=/api/pota HTTP/1.1" "HTTP/1.1")
                  Sample.w0))
     = [Urlopen
          (fetch_request "https://services.swpc.noaa.gov/json/goes/primary/xrays-7-day.json")
          10].
Proof.
  split; [reflexivity|].
  apply (one_outbound_get Sample.env_down "xray"
           "https://services.swpc.noaa.gov/json/goes/primary/xrays-7-day.json"
           (Some "days=7&url=/api/pota")
           "GET /api/xray?days=7&url=/api/pota HTTP/1.1" "HTTP/1.1" Sample.w0);
    reflexivity.
Defined.

(** C5, at the path [/api/po/api/ta]. Stripping the one leading ['/api/']
    and the query string, as the claim has it, leaves [po/api/ta], which is
    no key of the table; the code's [replace] removes the second ['/api/'] as
    well, the lookup key is [pota], and that upstream is fetched. *)
Theorem endpoint_of_strips_every_occurrence (env : Env) (port : Z) (dir : string) (t : nat) :
  let w := mkWorld API_ENDPOINTS port dir t in
  spec_endpoint_of "/api/po/api/ta" = "po/api/ta"
  /\ OpenHamClockHandler.endpoint_of "/api/po/api/ta" = "pota"
  /\ dict_get API_ENDPOINTS (spec_endpoint_of "/api/po/api/ta") = None
  /\ dict_get API_ENDPOINTS (OpenHamClockHandler.endpoint_of "/api/po/api/ta")
     = Some "https://api.pota.app/spot/activator"
  /\ List.filter is_Urlopen
       (events (OpenHamClockHandler.do_GET env (Sample.get "/api/po/api/ta") w))
     = [Urlopen (fetch_request "https://api.pota.app/spot/activator") 10].
Proof.
  cbv zeta. do 4 (split; [reflexivity|]).
  set (w := mkWorld API_ENDPOINTS port dir t).
  set (self := Sample.get "/api/po/api/ta").
  assert (Hd : dict_get (mod_API_ENDPOINTS w)
                 (OpenHamClockHandler.endpoint_of (path self))
               = Some "https://api.pota.app/spot/activator") by reflexivity.
  unfold OpenHamClockHandler.do_GET.
  change (PyStr.startswith (path self) "/api/") with true. cbv iota.
  destruct (urlopen_result env (S (ticks w))
              (fetch_request "https://api.pota.app/spot/activator") 10)
    as [resp|e] eqn:Hu.
  - destruct (read resp) as [data|e] eqn:Hr.
    + destruct (handle_api_relay env self w _ resp data Hd Hu Hr)
        as (logged & date & w' & Hlogged & ->).
      change (PyStr.startswith (requestline self) "GET /api/") with true in Hlogged.
      cbv iota in Hlogged. subst logged. reflexivity.
    + rewrite (handle_api_failed env self w _ e Hd) by (right; eauto).
      cbn [events]. unfold failure_log.
      destruct (is_URLError e), (is_Exception e); reflexivity.
  - rewrite (handle_api_failed env self w _ e Hd) by (left; exact Hu).
    cbn [events]. unfold failure_log.
    destruct (is_URLError e), (is_Exception e); reflexivity.
Qed.

(** ** Logging *)

(** C9: for a request whose request line begins ['GET /api/'] and whose path
    is under ['/api/'], [log_message] prints nothing for that request line;
    and when the path resolves to [url], the request opens with the line
    carrying the clock reading and [url], printed before the one outbound
    call, after which nothing is printed but failure lines and no further
    call is made. When the path does not resolve, nothing is printed at
    all. So the request has at most one line in the log of requests. *)
Theorem fetch_logged_once (env : Env) (self : Handler) (w : World) :
  PyStr.startswith (requestline self) "GET /api/" = true ->
  PyStr.startswith (path self) "/api/" = true ->
  (forall format rest w',
     OpenHamClockHandler.log_message env self format (PyStr_ (requestline self) :: rest) w'
     = mkRun (Return tt) w' [])
  /\ match dict_get (mod_API_ENDPOINTS w) (OpenHamClockHandler.endpoint_of (path self)) with
     | Some url =>
         exists tail,
           events (OpenHamClockHandler.do_GET env self w)
           = [Enter "handle_api";
              Print ("[" ++ strftime_HMS env (ticks w) ++ "] Fetching: " ++ url);
              Urlopen (fetch_request url) 10] ++ tail
           /\ Forall after_fetch_ok tail
     | None => events (OpenHamClockHandler.do_GET env self w) = [Enter "handle_api"]
     end.
Proof.
  intros Hline Hp. split.
  { intros format rest w'. cbn. rewrite Hline. reflexivity. }
  unfold OpenHamClockHandler.do_GET. rewrite Hp.
  destruct (dict_get (mod_API_ENDPOINTS w) _) as [url|] eqn:Hd;
    [|rewrite (handle_api_unknown env self w Hd); reflexivity].
  assert (Hfail : forall e, Forall after_fetch_ok
                              (failure_log (OpenHamClockHandler.endpoint_of (path self)) e)).
  { intros e. unfold failure_log.
    destruct (is_URLError e), (is_Exception e); repeat constructor. }
  destruct (urlopen_result env (S (ticks w)) (fetch_request url) 10) as [resp|e] eqn:Hu.
  - destruct (read resp) as [data|e] eqn:Hr.
    + destruct (handle_api_relay env self w url resp data Hd Hu Hr)
        as (logged & date & w' & Hlogged & ->).
      rewrite Hline in Hlogged. subst logged.
      eexists. split; [reflexivity|].
      unfold head_calls. destruct (is_http_0_9 self); repeat constructor.
    + rewrite (handle_api_failed env self w url e Hd) by (right; eauto).
      eexists. split; [reflexivity | apply Hfail].
  - rewrite (handle_api_failed env self w url e Hd) by (left; exact Hu).
    eexists. split; [reflexivity | apply Hfail].
Qed.

Lemma fetch_logged_once_witness :
  PyStr.startswith (requestline (Sample.get "/api/bands")) "GET /api/" = true
  /\ exists tail,
       events (OpenHamClockHandler.do_GET Sample.env_ok (Sample.get "/api/bands") Sample.w0)
       = [Enter "handle_api";
          Print "[12:00:00] Fetching: https://www.hamqsl.com/solarxml.php";
          Urlopen (fetch_request "https://www.hamqsl.com/solarxml.php") 10] ++ tail
       /\ Forall after_fetch_ok tail.
Proof.
  split; [reflexivity|].
  exact (proj2 (fetch_logged_once Sample.env_ok (Sample.get "/api/bands") Sample.w0
                  eq_refl eq_refl)).
Defined.

(** * Further properties of the code *)

(** ** The lookup key *)

Lemma prefix_cons a s1 b s2 :
  String.prefix (String a s1) (String b s2)
  = if ascii_dec a b then String.prefix s1 s2 else false.
Proof. reflexivity. Qed.

Lemma prefix_nil_r a s1 : String.prefix (String a s1) EmptyString = false.
Proof. reflexivity. Qed.

(** Decide the character comparisons a prefix test has come down to. *)
Ltac case_ascii_dec :=
  rewrite ?prefix_cons, ?prefix_nil_r, ?prefix_empty;
  repeat match goal with
         | |- context [ascii_dec ?a ?b] =>
             destruct (ascii_dec a b); try discriminate; try congruence; subst;
             rewrite ?prefix_cons, ?prefix_nil_r, ?prefix_empty
         end.

(** No occurrence of ['/api/'] straddles a ['?']. *)
Lemma prefix_api_app p q :
  String.prefix "/api/" (p ++ "?" ++ q) = String.prefix "/api/" p.
Proof.
  destruct p as [|c1 [|c2 [|c3 [|c4 [|c5 p]]]]]; cbn [append];
    case_ascii_dec; reflexivity.
Qed.

Lemma prefix_api_length p :
  String.prefix "/api/" p = true -> (5 <= String.length p)%nat.
Proof.
  destruct p as [|c1 [|c2 [|c3 [|c4 [|c5 p]]]]]; cbn [String.length];
    case_ascii_dec; intros H; try discriminate H; lia.
Qed.

Lemma replace_from_skip old new k c s :
  PyStr.replace_from old new (S k) (String c s) = PyStr.replace_from old new k s.
Proof. reflexivity. Qed.

Lemma replace_from_scan old new c s :
  PyStr.replace_from old new O (String c s)
  = if String.prefix old (String c s)
    then (new ++ PyStr.replace_from old new (Nat.pred (String.length old)) s)%string
    else String c (PyStr.replace_from old new O s).
Proof. reflexivity. Qed.

(** Replacement goes through a ['?'] undisturbed: what is before it and
    what is after it are rewritten independently. *)
Lemma replace_from_app_query p : forall k q,
  (k <= String.length p)%nat ->
  PyStr.replace_from "/api/" EmptyString k (p ++ "?" ++ q)
  = (PyStr.replace_from "/api/" EmptyString k p
     ++ "?" ++ PyStr.replace_from "/api/" EmptyString O q)%string.
Proof.
  induction p as [|c p IH]; intros k q Hk.
  - cbn in Hk. assert (k = O) by lia. subst k. reflexivity.
  - change (String c p ++ "?" ++ q)%string with (String c (p ++ "?" ++ q)).
    destruct k as [|k].
    + rewrite !replace_from_scan.
      change (String c (p ++ "?" ++ q)) with (String c p ++ "?" ++ q)%string.
      rewrite prefix_api_app.
      destruct (String.prefix "/api/" (String c p)) eqn:E.
      * apply prefix_api_length in E. cbn in E.
        cbn [String.length Nat.pred append]. apply IH. lia.
      * cbn [append]. f_equal. apply IH. lia.
    + rewrite !replace_from_skip. apply IH. cbn in Hk. lia.
Qed.

Lemma split_head_app_query a b :
  PyStr.split_head (a ++ "?" ++ b) "?" = PyStr.split_head a "?".
Proof.
  induction a as [|c a IH]; cbn [append PyStr.split_head].
  - case_ascii_dec; reflexivity.
  - case_ascii_dec; try reflexivity. f_equal; exact IH.
Qed.

Lemma split_head_no_query s :
  ~ In "?"%char (list_ascii_of_string (PyStr.split_head s "?")).
Proof.
  induction s as [|c s IH]; cbn [PyStr.split_head list_ascii_of_string In]; [tauto|].
  rewrite prefix_cons, prefix_empty.
  destruct (ascii_dec "?" c) as [<-|Hc]; cbn [list_ascii_of_string In]; [tauto|].
  intros [H|H]; [congruence | contradiction].
Qed.

Lemma replace_from_absent old new s :
  occurs old s = false -> PyStr.replace_from old new O s = s.
Proof.
  induction s as [|c s IH]; [reflexivity|].
  cbn [occurs]. intros H. apply orb_false_iff in H. destruct H as [Hp Ho].
  rewrite replace_from_scan, Hp. f_equal. apply IH, Ho.
Qed.

Lemma substring_all s : String.substring 0 (String.length s) s = s.
Proof. induction s as [|c s IH]; cbn; [reflexivity | now rewrite IH]. Qed.

(** X1: nothing from a ['?'] on has any part in the lookup key: a path and
    the same path followed by ['?'] and any text resolve to the same key,
    whatever the path is. *)
Theorem endpoint_of_ignores_query (p q : string) :
  OpenHamClockHandler.endpoint_of (p ++ "?" ++ q) = OpenHamClockHandler.endpoint_of p.
Proof.
  unfold OpenHamClockHandler.endpoint_of, PyStr.replace.
  rewrite replace_from_app_query by lia.
  apply split_head_app_query.
Qed.

(** X2: the lookup key never contains a ['?']. *)
Theorem endpoint_of_has_no_query (p : string) :
  ~ In "?"%char (list_ascii_of_string (OpenHamClockHandler.endpoint_of p)).
Proof. apply split_head_no_query. Qed.

(** X3: when ['/api/'] does not occur again in what follows the leading
    prefix, the key the code computes is the one obtained by dropping that
    prefix and cutting at the first ['?']. *)
Theorem endpoint_of_single_prefix (rest : string) :
  occurs "/api/" rest = false ->
  OpenHamClockHandler.endpoint_of ("/api/" ++ rest) = PyStr.split_head rest "?"
  /\ OpenHamClockHandler.endpoint_of ("/api/" ++ rest) = spec_endpoint_of ("/api/" ++ rest).
Proof.
  intros H.
  assert (E : OpenHamClockHandler.endpoint_of ("/api/" ++ rest) = PyStr.split_head rest "?").
  { unfold OpenHamClockHandler.endpoint_of, PyStr.replace.
    cbn [append]. rewrite replace_from_scan.
    assert (Hp : String.prefix "/api/" (String "/" (String "a" (String "p"
                   (String "i" (String "/" rest))))) = true)
      by (case_ascii_dec; reflexivity).
    rewrite Hp. cbn [String.length Nat.pred append].
    rewrite !replace_from_skip, (replace_from_absent _ _ _ H). reflexivity. }
  split; [exact E|]. rewrite E.
  unfold spec_endpoint_of, PyStr.startswith.
  assert (Hp : String.prefix "/api/" ("/api/" ++ rest) = true)
    by (cbn [append]; case_ascii_dec; reflexivity).
  rewrite Hp. cbn [append String.length Nat.sub String.substring].
  rewrite Nat.sub_0_r, substring_all. reflexivity.
Qed.

Lemma endpoint_of_single_prefix_witness :
  occurs "/api/" "sunspots/2024?from=/api" = false
  /\ OpenHamClockHandler.endpoint_of ("/api/" ++ "sunspots/2024?from=/api") = "sunspots/2024".
Proof.
  split; [reflexivity|].
  exact (proj1 (endpoint_of_single_prefix "sunspots/2024?from=/api" eq_refl)).
Defined.

(** ** Outbound calls *)

Lemma hoare_serve_forever_of env I P :
  (forall self, hoare I P (OpenHamClockHandler.do_GET env self)) ->
  (forall e, P (HandleError e)) ->
  forall requests, hoare I P (serve_forever env requests).
Proof.
  intros Hget Herr requests.
  induction requests as [|self rest IH]; cbn [serve_forever]; [apply hoare_ret|].
  apply hoare_bind; [|intros _; apply IH].
  apply hoare_try_except; [apply Hget|].
  intros e h Hh. destruct (is_Exception e); [|discriminate].
  injection Hh as <-. apply hoare_emit, Herr.
Qed.

Lemma triple_main_of env Pre I P :
  triple Pre I P (main_startup env) ->
  (forall self, hoare I P (OpenHamClockHandler.do_GET env self)) ->
  (forall e, P (HandleError e)) ->
  (forall line, P (Print line)) ->
  forall requests, triple Pre I P (main env requests).
Proof.
  intros Hstart Hget Herr Hprint requests. unfold main.
  apply triple_bind; [exact Hstart | intros _].
  apply hoare_try_except; [apply hoare_serve_forever_of; assumption|].
  intros e h Hh. destruct (exn_class e); try discriminate.
  injection Hh as <-. apply hoare_emit, Hprint.
Qed.

Lemma failure_log_fetches table endpoint e :
  Forall (fetches_from table) (failure_log endpoint e).
Proof.
  unfold failure_log.
  destruct (is_URLError e), (is_Exception e); repeat constructor.
Qed.

Lemma hoare_do_GET_fetches env table self :
  hoare (fun w => mod_API_ENDPOINTS w = table) (fetches_from table)
        (OpenHamClockHandler.do_GET env self).
Proof.
  unfold OpenHamClockHandler.do_GET.
  destruct (PyStr.startswith (path self) "/api/");
    [|apply hoare_static_do_GET; unfold tick_stable; cbn; auto].
  intros w Hw. split.
  { apply (hoare_handle_api env (fun w => mod_API_ENDPOINTS w = table) (fun _ => True));
      unfold tick_stable; cbn; auto. }
  destruct (dict_get (mod_API_ENDPOINTS w) (OpenHamClockHandler.endpoint_of (path self)))
    as [url|] eqn:Hd; [|rewrite (handle_api_unknown env self w Hd); repeat constructor].
  assert (Hcall : fetches_from table (Urlopen (fetch_request url) 10)).
  { split; [reflexivity|]. rewrite Hw in Hd. eauto. }
  destruct (urlopen_result env (S (ticks w)) (fetch_request url) 10) as [resp|e] eqn:Hu.
  - destruct (read resp) as [data|e] eqn:Hr.
    + destruct (handle_api_relay env self w url resp data Hd Hu Hr)
        as (logged & date & w' & Hlogged & ->).
      cbn [events]. unfold head_calls.
      destruct (PyStr.startswith (requestline self) "GET /api/"), (is_http_0_9 self);
        subst logged;
        repeat (constructor; [first [exact Hcall | exact Logic.I]|]); constructor.
    + rewrite (handle_api_failed env self w url e Hd) by (right; eauto).
      cbn [events]. apply Forall_app. split; [|apply failure_log_fetches].
      repeat (constructor; [first [exact Hcall | exact Logic.I]|]); constructor.
  - rewrite (handle_api_failed env self w url e Hd) by (left; exact Hu).
    cbn [events]. apply Forall_app. split; [|apply failure_log_fetches].
    repeat (constructor; [first [exact Hcall | exact Logic.I]|]); constructor.
Qed.

(** X4: whatever the requests and whatever the network and the file system
    answer, every outbound call of a request, and of a whole run of [main],
    is the fetch of a URL that the table binds to some name, with the fixed
    User-Agent header, no body and the timeout of 10 seconds. Nothing of the
    request ever becomes the address of a call. *)
Theorem only_table_urls_fetched (env : Env) (w : World) :
  (forall self,
     Forall (fetches_from (mod_API_ENDPOINTS w))
            (events (OpenHamClockHandler.do_GET env self w)))
  /\ (forall requests,
        Forall (fetches_from (mod_API_ENDPOINTS w)) (events (main env requests w))).
Proof.
  split.
  - intros self. apply (hoare_do_GET_fetches env (mod_API_ENDPOINTS w) self w eq_refl).
  - intros requests.
    apply (triple_main_of env
             (fun w' => mod_API_ENDPOINTS w' = mod_API_ENDPOINTS w)
             (fun w' => mod_API_ENDPOINTS w' = mod_API_ENDPOINTS w)
             (fetches_from (mod_API_ENDPOINTS w)));
      try (intros; exact Logic.I); try reflexivity.
    + apply triple_main_startup; cbn; auto.
    + intros self. apply hoare_do_GET_fetches.
Qed.

(** ** What a proxy request leaves behind *)

(** X5: a request under ['/api/'] does not return normally without
    having relayed. If [do_GET] returns, the path resolved to a URL,
    [urlopen] returned a response, its body was read, and the response calls
    made are the whole relayed response: status 200, the five headers, the
    end of the headers and the body, or, for a request line without a
    version (HTTP/0.9), the body alone. *)
Theorem normal_return_means_relayed (env : Env) (self : Handler) (w : World) :
  PyStr.startswith (path self) "/api/" = true ->
  outcome (OpenHamClockHandler.do_GET env self w) = Return tt ->
  exists url resp data date,
    dict_get (mod_API_ENDPOINTS w) (OpenHamClockHandler.endpoint_of (path self))
    = Some url
    /\ urlopen_result env (S (ticks w)) (fetch_request url) 10 = Return resp
    /\ read resp = Return data
    /\ List.filter is_response_event (events (OpenHamClockHandler.do_GET env self w))
       = if is_http_0_9 self then [WfileWrite data]
         else relayed_response env date
                (headers_get (headers resp) "Content-Type" "application/json") data.
Proof.
  intros Hp. unfold OpenHamClockHandler.do_GET. rewrite Hp.
  destruct (dict_get (mod_API_ENDPOINTS w) (OpenHamClockHandler.endpoint_of (path self)))
    as [url|] eqn:Hd.
  2:{ rewrite (handle_api_unknown env self w Hd). discriminate. }
  assert (Hfail : forall e, failure_outcome e <> Return tt).
  { intros e. unfold failure_outcome.
    destruct (is_URLError e || is_Exception e); discriminate. }
  destruct (urlopen_result env (S (ticks w)) (fetch_request url) 10) as [resp|e] eqn:Hu.
  - destruct (read resp) as [data|e] eqn:Hr.
    + destruct (handle_api_relay env self w url resp data Hd Hu Hr)
        as (logged & date & w' & Hlogged & ->).
      intros _. exists url, resp, data, date.
      repeat (split; [assumption || reflexivity|]).
      cbn [events]. unfold head_calls, relayed_response.
      destruct (PyStr.startswith (requestline self) "GET /api/"), (is_http_0_9 self);
        subst logged; reflexivity.
    + rewrite (handle_api_failed env self w url e Hd) by (right; eauto).
      intros H. destruct (Hfail e H).
  - rewrite (handle_api_failed env self w url e Hd) by (left; exact Hu).
    intros H. destruct (Hfail e H).
Qed.

Lemma normal_return_means_relayed_witness :
  outcome (OpenHamClockHandler.do_GET Sample.env_ok (Sample.get_0_9 "/api/solarflux")
             Sample.w0) = Return tt
  /\ exists url resp data date,
       dict_get (mod_API_ENDPOINTS Sample.w0)
         (OpenHamClockHandler.endpoint_of (path (Sample.get_0_9 "/api/solarflux")))
       = Some url
       /\ urlopen_result Sample.env_ok (S (ticks Sample.w0)) (fetch_request url) 10
          = Return resp
       /\ read resp = Return data
       /\ List.filter is_response_event
            (events (OpenHamClockHandler.do_GET Sample.env_ok
                       (Sample.get_0_9 "/api/solarflux") Sample.w0))
          = if is_http_0_9 (Sample.get_0_9 "/api/solarflux") then [WfileWrite data]
            else relayed_response Sample.env_ok date
                   (headers_get (headers resp) "Content-Type" "application/json") data.
Proof.
  split; [reflexivity|].
  exact (normal_return_means_relayed Sample.env_ok (Sample.get_0_9 "/api/solarflux")
           Sample.w0 eq_refl eq_refl).
Defined.

(** X6: the access log is silenced by the text of the request line, not by
    the path. A relayed request whose request line does not begin with the
    very characters ['GET /api/'] is printed twice: the fetch line first,
    then, when the response is started, the access line. *)
Theorem proxy_logged_twice (env : Env) (self : Handler) (w : World)
    (url : string) (resp : Response) (data : list byte) :
  PyStr.startswith (path self) "/api/" = true ->
  dict_get (mod_API_ENDPOINTS w) (OpenHamClockHandler.endpoint_of (path self)) = Some url ->
  urlopen_result env (S (ticks w)) (fetch_request url) 10 = Return resp ->
  read resp = Return data ->
  PyStr.startswith (requestline self) "GET /api/" = false ->
  List.filter is_Print (events (OpenHamClockHandler.do_GET env self w))
  = [Print (fetch_line env (ticks w) url);
     Print (access_line env (S (S (ticks w))) (requestline self))].
Proof.
  intros Hp Hd Hu Hr Hline.
  unfold OpenHamClockHandler.do_GET. rewrite Hp.
  destruct (handle_api_relay env self w url resp data Hd Hu Hr)
    as (logged & date & w' & Hlogged & ->).
  rewrite Hline in Hlogged. subst logged.
  cbn [events]. unfold head_calls. destruct (is_http_0_9 self); reflexivity.
Qed.

Lemma proxy_logged_twice_witness :
  PyStr.startswith "GET  /api/pota HTTP/1.1" "GET /api/" = false
  /\ List.filter is_Print
       (events (OpenHamClockHandler.do_GET Sample.env_ok
                  (mkHandler "/api/pota" "GET  /api/pota HTTP/1.1" "HTTP/1.1") Sample.w0))
     = [Print "[12:00:00] Fetching: https://api.pota.app/spot/activator";
        Print "[12:00:00] GET  /api/pota HTTP/1.1"].
Proof.
  split; [reflexivity|].
  apply (proxy_logged_twice Sample.env_ok
           (mkHandler "/api/pota" "GET  /api/pota HTTP/1.1" "HTTP/1.1") Sample.w0
           "https://api.pota.app/spot/activator"
           (mkResponse 200 [("content-type", "text/plain")] (Return Sample.body))
           Sample.body);
    reflexivity.
Defined.

(** X7: a fetch that fails, in [urlopen] or while the body is read, for a
    path under ['/api/'] that resolves to [url]: one outbound call was made
    and the fetch line printed before it; then, for a URLError, one line
    with the endpoint name and the error text, for any other Exception one
    line with the error text alone, for an exception that is no Exception
    nothing; no response call is made, and the request ends in the
    AttributeError of [log_message], or in the exception itself when no
    clause caught it. *)
Theorem failed_fetch_run (env : Env) (self : Handler) (w : World) (url : string) (e : Exn) :
  PyStr.startswith (path self) "/api/" = true ->
  dict_get (mod_API_ENDPOINTS w) (OpenHamClockHandler.endpoint_of (path self)) = Some url ->
  (urlopen_result env (S (ticks w)) (fetch_request url) 10 = Raise e
   \/ exists resp,
        urlopen_result env (S (ticks w)) (fetch_request url) 10 = Return resp
        /\ read resp = Raise e) ->
  events (OpenHamClockHandler.do_GET env self w)
  = [Enter "handle_api"; Print (fetch_line env (ticks w) url);
     Urlopen (fetch_request url) 10]
    ++ (if is_URLError e then
          [Print ("[ERROR] Failed to fetch " ++ OpenHamClockHandler.endpoint_of (path self)
                  ++ ": " ++ exn_str e)]
        else if is_Exception e then [Print ("[ERROR] " ++ exn_str e)]
        else [])
  /\ outcome (OpenHamClockHandler.do_GET env self w)
     = (if is_URLError e || is_Exception e then Raise no_startswith else Raise e)
  /\ List.filter is_response_event (events (OpenHamClockHandler.do_GET env self w)) = [].
Proof.
  intros Hp Hd Hf.
  unfold OpenHamClockHandler.do_GET. rewrite Hp.
  rewrite (handle_api_failed env self w url e Hd Hf).
  cbn [events outcome]. split; [reflexivity|]. split; [reflexivity|].
  unfold failure_log. destruct (is_URLError e), (is_Exception e); reflexivity.
Qed.

Lemma failed_fetch_run_witness :
  events (OpenHamClockHandler.do_GET Sample.env_files (Sample.get "/api/xray") Sample.w0)
  = [Enter "handle_api";
     Print "[12:00:00] Fetching: https://services.swpc.noaa.gov/json/goes/primary/xrays-7-day.json";
     Urlopen (fetch_request "https://services.swpc.noaa.gov/json/goes/primary/xrays-7-day.json")
             10;
     Print "[ERROR] timed out"]
  /\ outcome (OpenHamClockHandler.do_GET Sample.env_files (Sample.get "/api/xray") Sample.w0)
     = Raise no_startswith.
Proof.
  destruct (failed_fetch_run Sample.env_files (Sample.get "/api/xray") Sample.w0
              "https://services.swpc.noaa.gov/json/goes/primary/xrays-7-day.json"
              (mkExn TimeoutError "timed out") eq_refl eq_refl
              (or_intror (ex_intro _ (mkResponse 200 [] (Raise (mkExn TimeoutError "timed out")))
                                   (conj eq_refl eq_refl))))
    as (He & Ho & _).
  split; [exact He | exact Ho].
Defined.

(** X8: a request under ['/api/'] whose key is not in the table does
    nothing but fail: no outbound call, no line printed, no response call,
    the world as it was, and the AttributeError of [log_message] as its end.
    The server reports it and goes on with the requests that follow, from
    the same world. *)
Theorem unknown_endpoint_run (env : Env) (self : Handler) (w : World) :
  PyStr.startswith (path self) "/api/" = true ->
  dict_get (mod_API_ENDPOINTS w) (OpenHamClockHandler.endpoint_of (path self)) = None ->
  OpenHamClockHandler.do_GET env self w
  = mkRun (Raise no_startswith) w [Enter "handle_api"]
  /\ forall rest,
       serve_forever env (self :: rest) w
       = prepend [Enter "handle_api"; HandleError no_startswith] (serve_forever env rest w).
Proof.
  intros Hp Hd.
  assert (H : OpenHamClockHandler.do_GET env self w
              = mkRun (Raise no_startswith) w [Enter "handle_api"]).
  { unfold OpenHamClockHandler.do_GET. rewrite Hp. apply handle_api_unknown, Hd. }
  split; [exact H|]. intros rest. cbn [serve_forever].
  rewrite (bind_run _ (fun _ => serve_forever env rest) w tt w
             [Enter "handle_api"; HandleError no_startswith]); [reflexivity|].
  rewrite (try_except_caught _ _ w no_startswith w [Enter "handle_api"]
             (emit (HandleError no_startswith)) H eq_refl).
  reflexivity.
Qed.

Lemma unknown_endpoint_run_witness :
  dict_get (mod_API_ENDPOINTS Sample.w0) (OpenHamClockHandler.endpoint_of "/api/POTA") = None
  /\ events (serve_forever Sample.env_ok [Sample.get "/api/POTA"; Sample.get "/api/pota/"]
               Sample.w0)
     = [Enter "handle_api"; HandleError no_startswith;
        Enter "handle_api"; HandleError no_startswith].
Proof.
  split; [reflexivity|].
  rewrite (proj2 (unknown_endpoint_run Sample.env_ok (Sample.get "/api/POTA") Sample.w0
                    eq_refl eq_refl)).
  rewrite (proj2 (unknown_endpoint_run Sample.env_ok (Sample.get "/api/pota/") Sample.w0
                    eq_refl eq_refl)).
  reflexivity.
Defined.

(** ** Static requests *)

Lemma for_each_send_header_run self hdrs w :
  for_each hdrs (fun kv : string * string =>
                   BaseHTTPRequestHandler.send_header self (fst kv) (snd kv)) w
  = mkRun (Return tt) w
      (head_calls self (map (fun kv => SendHeader (fst kv) (snd kv)) hdrs)).
Proof.
  unfold head_calls, BaseHTTPRequestHandler.send_header.
  destruct (is_http_0_9 self).
  - induction hdrs as [|kv hdrs IH]; [reflexivity|].
    cbn [for_each]. rewrite (bind_run _ _ w tt w [] eq_refl), IH. reflexivity.
  - induction hdrs as [|kv hdrs IH]; [reflexivity|].
    cbn [for_each map].
    rewrite (bind_run _ _ w tt w [SendHeader (fst kv) (snd kv)] eq_refl), IH.
    reflexivity.
Qed.

Lemma copyfileobj_run reads w :
  BaseHTTPRequestHandler.copyfileobj reads w
  = mkRun (Return tt) w (map WfileWrite (blocks_written reads)).
Proof.
  induction reads as [|[|b buf] rest IH]; try reflexivity.
  cbn [BaseHTTPRequestHandler.copyfileobj blocks_written map].
  rewrite (bind_run _ _ w tt w [WfileWrite (b :: buf)] eq_refl), IH. reflexivity.
Qed.

(** The inherited [do_GET] up to the answer of the file system. *)
Lemma static_do_GET_run env self w :
  SimpleHTTPRequestHandler.do_GET env (OpenHamClockHandler.log_message env) self w
  = prepend [Enter "SimpleHTTPRequestHandler.do_GET"; FsLookup (cwd w) (path self)]
      (match send_head_result env (ticks w) (cwd w) (path self) with
       | StaticFile hdrs reads =>
           bind (OpenHamClockHandler.send_response env self 200) (fun _ =>
           bind (for_each hdrs
                   (fun kv => BaseHTTPRequestHandler.send_header self (fst kv) (snd kv)))
                (fun _ =>
           bind (BaseHTTPRequestHandler.end_headers self) (fun _ =>
                BaseHTTPRequestHandler.copyfileobj reads)))
       | StaticRedirect location =>
           bind (OpenHamClockHandler.send_response env self 301) (fun _ =>
           bind (BaseHTTPRequestHandler.send_header self "Location" location) (fun _ =>
           bind (BaseHTTPRequestHandler.send_header self "Content-Length" "0") (fun _ =>
                BaseHTTPRequestHandler.end_headers self)))
       | StaticNotModified =>
           bind (OpenHamClockHandler.send_response env self 304) (fun _ =>
                BaseHTTPRequestHandler.end_headers self)
       | StaticError code message =>
           BaseHTTPRequestHandler.send_error_status env (OpenHamClockHandler.log_message env)
             self code message
       end (tick_world w)).
Proof.
  unfold SimpleHTTPRequestHandler.do_GET.
  rewrite (bind_run _ _ w tt w [Enter "SimpleHTTPRequestHandler.do_GET"] eq_refl).
  rewrite (bind_run _ _ w (cwd w) w [] eq_refl).
  rewrite (bind_run _ _ w (ticks w) (tick_world w) [] eq_refl).
  rewrite (bind_run _ _ (tick_world w) tt (tick_world w)
             [FsLookup (cwd w) (path self)] eq_refl).
  rewrite !prepend_prepend. reflexivity.
Qed.

Lemma filter_Print_headers hdrs :
  List.filter is_Print (map (fun kv : string * string => SendHeader (fst kv) (snd kv)) hdrs)
  = [].
Proof. induction hdrs as [|kv hdrs IH]; [reflexivity | exact IH]. Qed.

Lemma filter_Print_writes blocks :
  List.filter is_Print (map WfileWrite blocks) = [].
Proof. induction blocks as [|b blocks IH]; [reflexivity | exact IH]. Qed.



(** X10: a request outside ['/api/'] prints exactly one line, its access
    line, when the file server answers it (a file, a redirect, not
    modified), and none at all when the file server reports an error. *)
Theorem static_request_log (env : Env) (self : Handler) (w : World) :
  PyStr.startswith (path self) "/api/" = false ->
  PyStr.startswith (requestline self) "GET /api/" = false ->
  List.filter is_Print (events (OpenHamClockHandler.do_GET env self w))
  = match send_head_result env (ticks w) (cwd w) (path self) with
    | StaticError _ _ => []
    | _ => [Print (access_line env (S (ticks w)) (requestline self))]
    end.
Proof.
  intros Hp Hline.
  unfold OpenHamClockHandler.do_GET. rewrite Hp, static_do_GET_run.
  pose proof (fun code => send_response_run env self code (tick_world w)) as Hsr.
  rewrite Hline in Hsr.
  destruct (send_head_result env (ticks w) (cwd w) (path self))
    as [hdrs reads|location| |code message].
  - rewrite (bind_run _ _ _ _ _ _ (Hsr 200)).
    rewrite (bind_run _ _ _ _ _ _ (for_each_send_header_run self hdrs _)).
    unfold BaseHTTPRequestHandler.end_headers, head_calls.
    destruct (is_http_0_9 self);
      (erewrite bind_run by reflexivity); rewrite copyfileobj_run;
      cbn [prepend events app map];
      do 3 (cbn [List.filter is_Print app];
            rewrite ?filter_app, ?filter_Print_headers, ?filter_Print_writes);
      reflexivity.
  - rewrite (bind_run _ _ _ _ _ _ (Hsr 301)).
    unfold BaseHTTPRequestHandler.send_header, BaseHTTPRequestHandler.end_headers,
      head_calls.
    destruct (is_http_0_9 self); reflexivity.
  - rewrite (bind_run _ _ _ _ _ _ (Hsr 304)).
    unfold BaseHTTPRequestHandler.end_headers, head_calls.
    destruct (is_http_0_9 self); reflexivity.
  - rewrite send_error_status_raises. reflexivity.
Qed.

Lemma static_request_log_witness :
  List.filter is_Print
    (events (OpenHamClockHandler.do_GET Sample.env_ok (Sample.get "/missing.css") Sample.w0))
  = [].
Proof.
  exact (static_request_log Sample.env_ok (Sample.get "/missing.css") Sample.w0
           eq_refl eq_refl).
Defined.

(** X11: a request outside ['/api/'] for which the file server reports
    an error (a missing file) gets no answer: after the lookup,
    [send_error], called with a member of [HTTPStatus], ends in the
    AttributeError that [log_message] raises on it; no response call, no
    line printed. *)
Theorem static_error_run (env : Env) (self : Handler) (w : World)
    (code : Z) (message : string) :
  PyStr.startswith (path self) "/api/" = false ->
  send_head_result env (ticks w) (cwd w) (path self) = StaticError code message ->
  OpenHamClockHandler.do_GET env self w
  = mkRun (Raise (mkExn AttributeError "'HTTPStatus' object has no attribute 'startswith'"))
      (tick_world w)
      [Enter "SimpleHTTPRequestHandler.do_GET"; FsLookup (cwd w) (path self)].
Proof.
  intros Hp Hfs.
  unfold OpenHamClockHandler.do_GET. rewrite Hp, static_do_GET_run, Hfs.
  rewrite send_error_status_raises. reflexivity.
Qed.

Lemma static_error_run_witness :
  OpenHamClockHandler.do_GET Sample.env_ok (Sample.get "/missing.css") Sample.w0
  = mkRun (Raise (mkExn AttributeError "'HTTPStatus' object has no attribute 'startswith'"))
      (tick_world Sample.w0)
      [Enter "SimpleHTTPRequestHandler.do_GET"; FsLookup "/srv/openhamclock" "/missing.css"].
Proof.
  exact (static_error_run Sample.env_ok (Sample.get "/missing.css") Sample.w0
           404 "File not found" eq_refl eq_refl).
Defined.

(** ** Start-up *)

Lemma for_each_print_run (f : string * string -> string) table w :
  for_each table (fun kv => print (f kv)) w
  = mkRun (Return tt) w (map (fun kv => Print (f kv)) table).
Proof.
  induction table as [|kv table IH]; [reflexivity|].
  cbn [for_each map].
  rewrite (bind_run _ _ w tt w [Print (f kv)] eq_refl), IH.
  reflexivity.
Qed.

Lemma main_startup_eq env w :
  main_startup env w
  = mkRun (Return tt)
      (mkWorld (mod_API_ENDPOINTS w) (mod_PORT w) (script_dir env) (ticks w))
      ([Chdir (script_dir env)]
       ++ banner env (mod_API_ENDPOINTS w) (mod_PORT w)
       ++ [Bind EmptyString (mod_PORT w)]).
Proof.
  unfold main_startup.
  set (w1 := mkWorld (mod_API_ENDPOINTS w) (mod_PORT w) (script_dir env) (ticks w)).
  rewrite (bind_run (chdir (script_dir env)) _ w tt w1 [Chdir (script_dir env)] eq_refl).
  do 5 (erewrite (bind_run _ _ w1 tt w1) by reflexivity).
  rewrite (bind_run read_PORT _ w1 (mod_PORT w) w1 [] eq_refl).
  do 4 (erewrite (bind_run _ _ w1 tt w1) by reflexivity).
  rewrite (bind_run read_API_ENDPOINTS _ w1 (mod_API_ENDPOINTS w) w1 [] eq_refl).
  rewrite (bind_run _ _ w1 tt w1 _
             (for_each_print_run (fun kv => ("    /api/" ++ fst kv)%string) _ w1)).
  do 3 (erewrite (bind_run _ _ w1 tt w1) by reflexivity).
  unfold banner, dict_keys. rewrite map_map.
  cbn [prepend emit print outcome world events app].
  rewrite <- !app_assoc. reflexivity.
Qed.

(** X12: what start-up does, in order: the move to the directory of the
    script; the banner, which shows that directory, the port held by [PORT]
    and one [/api/<name>] line for each key of the table, in the table's
    order and nothing else; the call that creates the socket, on that same
    port. No outbound call is made and, of the world, only the working
    directory changes. Every run of [main] opens with these events, so
    nothing is served before the socket is asked for. *)
Theorem main_startup_run (env : Env) (w : World) :
  events (main_startup env w)
  = [Chdir (script_dir env)]
    ++ banner env (mod_API_ENDPOINTS w) (mod_PORT w)
    ++ [Bind EmptyString (mod_PORT w)]
  /\ world (main_startup env w)
     = mkWorld (mod_API_ENDPOINTS w) (mod_PORT w) (script_dir env) (ticks w)
  /\ forall requests,
       exists served,
         events (main env requests w)
         = ([Chdir (script_dir env)]
            ++ banner env (mod_API_ENDPOINTS w) (mod_PORT w)
            ++ [Bind EmptyString (mod_PORT w)])
           ++ served.
Proof.
  rewrite main_startup_eq. split; [reflexivity|]. split; [reflexivity|].
  intros requests. unfold main.
  rewrite (bind_run _ _ _ _ _ _ (main_startup_eq env w)). eexists. reflexivity.
Qed.

(** ** The world across requests *)

(** X13: handling requests moves nothing but the clock: after one request,
    and after any sequence of requests served one after the other, [PORT]
    and the working directory are what they were, and the clock has not
    gone back. *)
Theorem requests_move_only_the_clock (env : Env) (w : World) :
  (forall self,
     mod_PORT (world (OpenHamClockHandler.do_GET env self w)) = mod_PORT w
     /\ cwd (world (OpenHamClockHandler.do_GET env self w)) = cwd w
     /\ (ticks w <= ticks (world (OpenHamClockHandler.do_GET env self w)))%nat)
  /\ (forall requests,
        mod_PORT (world (serve_forever env requests w)) = mod_PORT w
        /\ cwd (world (serve_forever env requests w)) = cwd w
        /\ (ticks w <= ticks (world (serve_forever env requests w)))%nat).
Proof.
  set (I := fun w' => mod_PORT w' = mod_PORT w /\ cwd w' = cwd w
                      /\ (ticks w <= ticks w')%nat).
  assert (Hw : I w) by (unfold I; auto).
  assert (Ht : tick_stable I).
  { intros w' (Hp & Hc & Hk). unfold I; cbn. auto. }
  split.
  - intros self.
    apply (hoare_do_GET env I (fun _ => True)); auto.
  - intros requests.
    apply (hoare_serve_forever env I (fun _ => True)); auto.
Qed.


